(** * HolidayBot: the holiday cache subsystem

    A shallow embedding of [bot/utils/holidays.py] and [bot/messages.py]:
    the page parser, the two-slot cache document, the refresh coordinator
    and the digest formatter, with the properties the specification states
    about them.

    Layout: [Py] models the part of the Python runtime the code relies on
    (strings as sequences of code points, dynamically typed values,
    exceptions, dates) and names the library routines it calls as an
    interface, each with the exception it can raise; [Holidays] and
    [Messages] translate the two source modules function by function;
    [Reference] implements the interface and [Scenario] sets up a small
    deployment, to run the code on examples; the remaining modules state
    and prove the properties. *)

From Stdlib Require Import ZArith NArith List Bool Lia.
From Stdlib.Strings Require Import String Ascii Byte.
Import ListNotations.

Set Warnings "-register-all".

(* ================================================================== *)
(** * The Python runtime, as far as the code uses it                   *)
(* ================================================================== *)

Module Py.

(** ** Strings

    A Python [str] is a sequence of Unicode code points. *)

Definition codepoint := N.
Definition str := list codepoint.

Local Open Scope N_scope.

(** String literals of the source are written [u "..."]: the UTF-8 bytes
    of the literal, decoded (strictly: no overlong forms, no surrogates). *)

Definition is_cont (b : N) : bool := (0x80 <=? b) && (b <=? 0xBF).

Fixpoint utf8_decode (bs : list N) : option str :=
  match bs with
  | [] => Some []
  | b0 :: r0 =>
    if b0 <? 0x80 then option_map (cons b0) (utf8_decode r0)
    else if (0xC2 <=? b0) && (b0 <=? 0xDF) then
      match r0 with
      | b1 :: r1 =>
        if is_cont b1
        then option_map (cons ((b0 - 0xC0) * 64 + (b1 - 0x80))) (utf8_decode r1)
        else None
      | _ => None
      end
    else if (0xE0 <=? b0) && (b0 <=? 0xEF) then
      match r0 with
      | b1 :: b2 :: r2 =>
        let cp := (b0 - 0xE0) * 4096 + (b1 - 0x80) * 64 + (b2 - 0x80) in
        if is_cont b1 && is_cont b2 && (0x800 <=? cp)
           && negb ((0xD800 <=? cp) && (cp <=? 0xDFFF))
        then option_map (cons cp) (utf8_decode r2)
        else None
      | _ => None
      end
    else if (0xF0 <=? b0) && (b0 <=? 0xF4) then
      match r0 with
      | b1 :: b2 :: b3 :: r3 =>
        let cp := (b0 - 0xF0) * 262144 + (b1 - 0x80) * 4096
                  + (b2 - 0x80) * 64 + (b3 - 0x80) in
        if is_cont b1 && is_cont b2 && is_cont b3
           && (0x10000 <=? cp) && (cp <=? 0x10FFFF)
        then option_map (cons cp) (utf8_decode r3)
        else None
      | _ => None
      end
    else None
  end.

Definition u (s : string) : str :=
  match utf8_decode (map Byte.to_N (list_byte_of_string s)) with
  | Some cps => cps
  | None => []
  end.

(** [a + b] on strings is list append; [len] is [length]. *)

Fixpoint str_eqb (a b : str) : bool :=
  match a, b with
  | [], [] => true
  | x :: a', y :: b' => (x =? y) && str_eqb a' b'
  | _, _ => false
  end.

(** [s.startswith(p)] and [needle in hay]. *)

Fixpoint startswith (p s : str) : bool :=
  match p, s with
  | [], _ => true
  | x :: p', y :: s' => (x =? y) && startswith p' s'
  | _ :: _, [] => false
  end.

Fixpoint str_in (needle hay : str) : bool :=
  startswith needle hay
  || match hay with
     | [] => false
     | _ :: t => str_in needle t
     end.

(** [str.isspace] per code point ([Py_UNICODE_ISSPACE]): the characters
    [str.strip()] removes. *)

Definition is_space (c : codepoint) : bool :=
  ((0x09 <=? c) && (c <=? 0x0D)) || ((0x1C <=? c) && (c <=? 0x20))
  || (c =? 0x85) || (c =? 0xA0) || (c =? 0x1680)
  || ((0x2000 <=? c) && (c <=? 0x200A))
  || (c =? 0x2028) || (c =? 0x2029) || (c =? 0x202F) || (c =? 0x205F)
  || (c =? 0x3000).

Fixpoint dropwhile (p : codepoint -> bool) (s : str) : str :=
  match s with
  | [] => []
  | c :: t => if p c then dropwhile p t else s
  end.

Definition lstrip (s : str) : str := dropwhile is_space s.
Definition rstrip (s : str) : str := rev (dropwhile is_space (rev s)).
Definition strip (s : str) : str := rstrip (lstrip s).

(** [s.split(sep)] for a one-character separator: always at least one
    part, one more than the number of separators. *)

Fixpoint split (sep : codepoint) (s : str) : list str :=
  match s with
  | [] => [[]]
  | c :: t =>
    if c =? sep then [] :: split sep t
    else match split sep t with
         | p :: ps => (c :: p) :: ps
         | [] => [[c]]
         end
  end.

(** [sep.join(parts)]. *)

Fixpoint join (sep : str) (parts : list str) : str :=
  match parts with
  | [] => []
  | [p] => p
  | p :: ps => p ++ sep ++ join sep ps
  end.

(** Decimal rendering of integers: [str(n)] and the format [{n:02d}]. *)

Fixpoint digits_of_uint (d : Decimal.uint) : str :=
  match d with
  | Decimal.Nil => []
  | Decimal.D0 r => 48 :: digits_of_uint r
  | Decimal.D1 r => 49 :: digits_of_uint r
  | Decimal.D2 r => 50 :: digits_of_uint r
  | Decimal.D3 r => 51 :: digits_of_uint r
  | Decimal.D4 r => 52 :: digits_of_uint r
  | Decimal.D5 r => 53 :: digits_of_uint r
  | Decimal.D6 r => 54 :: digits_of_uint r
  | Decimal.D7 r => 55 :: digits_of_uint r
  | Decimal.D8 r => 56 :: digits_of_uint r
  | Decimal.D9 r => 57 :: digits_of_uint r
  end.

Definition str_of_N (n : N) : str := digits_of_uint (N.to_uint n).

Definition str_of_Z (z : Z) : str :=
  if (z <? 0)%Z then 45 :: str_of_N (Z.abs_N z) else str_of_N (Z.abs_N z).

Definition zfill (width : nat) (digits : str) : str :=
  repeat 48 (width - List.length digits) ++ digits.

(** [f"{z:0Wd}"]: zero padding goes between the sign and the digits, and
    the sign counts towards the width. *)
Definition format_0d (width : nat) (z : Z) : str :=
  if (z <? 0)%Z then 45 :: zfill (width - 1) (str_of_N (Z.abs_N z))
  else zfill width (str_of_N (Z.abs_N z)).

(** [seq[:limit]] for an integer [limit] of either sign. *)
Definition slice_to {A} (l : list A) (limit : Z) : list A :=
  if (limit <? 0)%Z
  then firstn (List.length l - Z.to_nat (- limit)) l
  else firstn (Z.to_nat limit) l.

(** ** Exceptions

    An exception is its class and its message.  [issubclass] is the part
    of the built-in hierarchy that the [except] clauses of the code can
    tell apart. *)

Inductive exc_class :=
  | Exception
  | ValueError
  | JSONDecodeError
  | UnicodeDecodeError
  | OSError
  | RuntimeError
  | TypeError
  | AttributeError
  | KeyError
  | OverflowError
  | AssertionError.

Definition exc_class_eqb (a b : exc_class) : bool :=
  match a, b with
  | Exception, Exception | ValueError, ValueError
  | JSONDecodeError, JSONDecodeError
  | UnicodeDecodeError, UnicodeDecodeError | OSError, OSError
  | RuntimeError, RuntimeError | TypeError, TypeError
  | AttributeError, AttributeError | KeyError, KeyError
  | OverflowError, OverflowError | AssertionError, AssertionError => true
  | _, _ => false
  end.

Definition issubclass (c parent : exc_class) : bool :=
  match parent with
  | Exception => true
  | ValueError =>
    match c with
    | ValueError | JSONDecodeError | UnicodeDecodeError => true
    | _ => false
    end
  | _ => exc_class_eqb c parent
  end.

Record exn := mk_exn { exc_type : exc_class; exc_msg : str }.

(** [isinstance(e, (C1, ..., Cn))], the test of an [except] clause. *)
Definition caught_by (e : exn) (classes : list exc_class) : bool :=
  existsb (issubclass (exc_type e)) classes.

(** The outcome of an expression that may raise. *)
Inductive result (A : Type) :=
  | Ok (a : A)
  | Raise (e : exn).
Arguments Ok {A} a.
Arguments Raise {A} e.

Definition rbind {A B} (r : result A) (k : A -> result B) : result B :=
  match r with
  | Ok a => k a
  | Raise e => Raise e
  end.

(** ** Dynamically typed values

    What [json.loads] can return and what the cache document is made of
    ([dict[str, Any]]).  A dictionary keeps its keys in insertion order.  A
    float is kept up to the one observation the code makes of a float,
    whether it is zero. *)

Inductive pyval :=
  | PNone
  | PBool (b : bool)
  | PInt (z : Z)
  | PFloat (nonzero : bool)
  | PStr (s : str)
  | PList (items : list pyval)
  | PDict (entries : list (str * pyval)).

Definition dict := list (str * pyval).

(** [bool(v)]. *)
Definition truthy (v : pyval) : bool :=
  match v with
  | PNone => false
  | PBool b => b
  | PInt z => negb (z =? 0)%Z
  | PFloat nonzero => nonzero
  | PStr s => match s with [] => false | _ => true end
  | PList l => match l with [] => false | _ => true end
  | PDict d => match d with [] => false | _ => true end
  end.

(** [v == s] for a string [s]: only an equal string compares equal. *)
Definition eq_str (v : pyval) (s : str) : bool :=
  match v with
  | PStr t => str_eqb t s
  | _ => false
  end.

Fixpoint lookup (d : dict) (k : str) : option pyval :=
  match d with
  | [] => None
  | (k', v) :: d' => if str_eqb k' k then Some v else lookup d' k
  end.

(** [d.get(k)] and [d.get(k, default)]. *)
Definition get (d : dict) (k : str) : pyval :=
  match lookup d k with
  | Some v => v
  | None => PNone
  end.

Definition get_default (d : dict) (k : str) (default : pyval) : pyval :=
  match lookup d k with
  | Some v => v
  | None => default
  end.

(** [d[k] = v]: an existing key keeps its place, a new key goes last. *)
Fixpoint setitem (d : dict) (k : str) (v : pyval) : dict :=
  match d with
  | [] => [(k, v)]
  | (k', v') :: d' =>
    if str_eqb k' k then (k', v) :: d' else (k', v') :: setitem d' k v
  end.

(** [d[k]]. *)
Definition getitem (d : dict) (k : str) : result pyval :=
  match lookup d k with
  | Some v => Ok v
  | None => Raise (mk_exn KeyError k)
  end.

(** [v.get]: only a dictionary has the method. *)
Definition as_dict (v : pyval) : result dict :=
  match v with
  | PDict d => Ok d
  | _ => Raise (mk_exn AttributeError (u "object has no attribute 'get'"))
  end.

(** [tuple(v)]: the items of a list, the characters of a string, the keys
    of a dictionary; anything else is not iterable. *)
Definition tuple (v : pyval) : result (list pyval) :=
  match v with
  | PList l => Ok l
  | PStr s => Ok (map (fun c => PStr [c]) s)
  | PDict d => Ok (map (fun kv => PStr (fst kv)) d)
  | _ => Raise (mk_exn TypeError (u "object is not iterable"))
  end.

(** ** Dates and times

    [datetime.date] is a year, a month and a day of the proleptic Gregorian
    calendar, years 1 to 9999. *)

Record date := mk_date { year : Z; month : Z; day : Z }.

Local Open Scope Z_scope.

Definition is_leap (y : Z) : bool :=
  (y mod 4 =? 0) && (negb (y mod 100 =? 0) || (y mod 400 =? 0)).

Definition days_in_month (y m : Z) : Z :=
  if m =? 2 then (if is_leap y then 29 else 28)
  else if (m =? 4) || (m =? 6) || (m =? 9) || (m =? 11) then 30
  else 31.

Definition valid_date (d : date) : Prop :=
  1 <= year d <= 9999 /\ 1 <= month d <= 12
  /\ 1 <= day d <= days_in_month (year d) (month d).

Definition date_eqb (a b : date) : bool :=
  (year a =? year b) && (month a =? month b) && (day a =? day b).

(** [d + timedelta(days=1)]; past 9999-12-31 it raises OverflowError. *)
Definition next_day (d : date) : result date :=
  if day d <? days_in_month (year d) (month d)
  then Ok (mk_date (year d) (month d) (day d + 1))
  else if month d <? 12 then Ok (mk_date (year d) (month d + 1) 1)
  else if year d <? 9999 then Ok (mk_date (year d + 1) 1 1)
  else Raise (mk_exn OverflowError (u "date value out of range")).

(** [d + timedelta(days=n)] for [n >= 0]. *)
Fixpoint add_days (d : date) (n : nat) : result date :=
  match n with
  | O => Ok d
  | S n' => rbind (next_day d) (fun d' => add_days d' n')
  end.

Example add_days_leap_february :
  add_days (mk_date 2024 2 28) 2 = Ok (mk_date 2024 3 1).
Proof. reflexivity. Qed.

Example add_days_common_february :
  add_days (mk_date 2023 2 28) 1 = Ok (mk_date 2023 3 1).
Proof. reflexivity. Qed.

Example add_days_new_year :
  add_days (mk_date 2023 12 31) 1 = Ok (mk_date 2024 1 1).
Proof. reflexivity. Qed.

Example add_days_century :
  add_days (mk_date 1900 2 28) 1 = Ok (mk_date 1900 3 1)
  /\ add_days (mk_date 2000 2 28) 1 = Ok (mk_date 2000 2 29).
Proof. split; reflexivity. Qed.

Example add_days_end_of_calendar :
  exists e, add_days (mk_date 9999 12 31) 1 = Raise e
            /\ exc_type e = OverflowError.
Proof. eexists. split; reflexivity. Qed.

(** [d.isoformat()]. *)
Definition date_isoformat (d : date) : str :=
  format_0d 4 (year d) ++ [45%N] ++ format_0d 2 (month d)
  ++ [45%N] ++ format_0d 2 (day d).

(** A time zone is the scheduler's fixed zone (Europe/Moscow) or another. *)
Inductive tz :=
  | Moscow
  | OtherZone (id : N).

Record datetime := mk_datetime {
  dt_date : date;
  hour : Z;
  minute : Z;
  second : Z;
  microsecond : Z;
  tzinfo : option tz
}.

Definition replace_tzinfo (t : datetime) (z : tz) : datetime :=
  mk_datetime (dt_date t) (hour t) (minute t) (second t) (microsecond t)
              (Some z).

(** ** Markup events

    [HTMLParser.feed] scans the text and calls [handle_starttag],
    [handle_endtag] and [handle_data] in document order (an empty-element
    tag [<x/>] calls the first two in turn; comments and declarations call
    handlers the parser class leaves empty).  Tag and attribute names arrive
    in lower case; an attribute without a value has value [None].  On a
    marked section it does not know ([<![x]>]) the scan raises
    AssertionError. *)

Inductive html_event :=
  | StartTag (tag : str) (attrs : list (str * option str))
  | EndTag (tag : str)
  | Data (data : str).

(** [dict(attrs).get(k)]: of a repeated attribute the last one counts. *)
Fixpoint attr_get (attrs : list (str * option str)) (k : str)
  : option (option str) :=
  match attrs with
  | [] => None
  | (k', v) :: rest =>
    match attr_get rest k with
    | Some w => Some w
    | None => if str_eqb k' k then Some v else None
    end
  end.

(** ** Library functions

    The library routines the code calls and whose tables or grammars
    belong to the interpreter, not to this repository.  The properties
    below hold for every implementation of this interface; [Reference]
    further down gives one to compute with. *)

Class Lib := {
  (** [s.lower()] *)
  lower : str -> str;
  (** the decimal value of a non-ASCII decimal digit ([unicodedata.decimal]) *)
  unicode_decimal : codepoint -> option N;
  (** [date.fromisoformat(s)]; [None] stands for ValueError *)
  date_fromisoformat : str -> option date;
  (** [t.isoformat()] *)
  datetime_isoformat : datetime -> str;
  (** [datetime.fromisoformat(s)]; [None] stands for ValueError *)
  datetime_fromisoformat : str -> option datetime;
  (** [t.astimezone(MOSCOW_TZ)] for an aware [t] of another zone: the
      reading of the same instant on the scheduler's clock, or the
      OverflowError raised when the instant, in UTC or on that clock, is
      not within the years 1 to 9999 *)
  astimezone_moscow : datetime -> result datetime;
  (** the year as [strftime]'s [%Y] prints it: the platform's C library
      decides whether a year below 1000 is padded with zeros *)
  strftime_Y : Z -> str;
  (** the handler calls [HTMLParser.feed(text)] makes, or the exception it
      raises *)
  html_events : str -> result (list html_event)
}.

(** [f"{d:%Y-%m-%d}"], which is [d.strftime("%Y-%m-%d")]. *)
Definition date_strftime {L : Lib} (d : date) : str :=
  strftime_Y (year d) ++ [45%N] ++ format_0d 2 (month d)
  ++ [45%N] ++ format_0d 2 (day d).

(** ** [int(s)]

    As CPython reads a string: non-ASCII spaces become a blank and
    non-ASCII decimal digits their ASCII digit, anything else non-ASCII is
    invalid; then blanks, an optional sign, digits with single underscores
    between them, blanks.  [None] stands for ValueError.  (The interpreter's
    limit on the number of digits, 4300 by default, is left out.) *)

Section Int.
Context {L : Lib}.

Local Open Scope N_scope.

Definition to_ascii (c : codepoint) : codepoint :=
  if c <? 127 then c
  else if is_space c then 32
  else match unicode_decimal c with
       | Some d => 48 + d
       | None => 63
       end.

Definition c_isspace (c : codepoint) : bool :=
  (c =? 32) || ((9 <=? c) && (c <=? 13)).

Definition is_digit (c : codepoint) : bool := (48 <=? c) && (c <=? 57).

Fixpoint scan_digits (after_underscore : bool) (acc : Z) (s : str)
  : option (Z * str) :=
  match s with
  | [] => if after_underscore then None else Some (acc, [])
  | c :: t =>
    if is_digit c then scan_digits false (acc * 10 + Z.of_N (c - 48))%Z t
    else if c =? 95 then
      if after_underscore then None else scan_digits true acc t
    else if after_underscore then None else Some (acc, s)
  end.

Definition split_sign (s : str) : Z * str :=
  match s with
  | 43 :: r => (1%Z, r)
  | 45 :: r => ((-1)%Z, r)
  | _ => (1%Z, s)
  end.

Definition parse_digits (sign : Z) (s : str) : option Z :=
  match s with
  | c :: _ =>
    if is_digit c then
      match scan_digits false 0%Z s with
      | Some (n, rest) =>
        match dropwhile c_isspace rest with
        | [] => Some (sign * n)%Z
        | _ => None
        end
      | None => None
      end
    else None
  | [] => None
  end.

Definition parse_long (s : str) : option Z :=
  let '(sign, digits) := split_sign (dropwhile c_isspace s) in
  parse_digits sign digits.

Definition int (s : str) : option Z := parse_long (map to_ascii s).

End Int.

End Py.

(* ================================================================== *)
(** * bot/utils/holidays.py                                            *)
(* ================================================================== *)

Module Holidays.
Import Py.

Definition CALEND_RU_URL : str := u "https://www.calend.ru/day/".

(** The [HolidayResult] dataclass.  [holidays] and [source_url] hold what
    the cache document held; nothing checks their declared types. *)
Record HolidayResult := mk_result {
  hr_date : date;
  holidays : list pyval;
  source_url : pyval;
  fetched_at : datetime;
  error : option str
}.

Definition has_data (r : HolidayResult) : bool :=
  match holidays r with [] => false | _ => true end.

(** ** [_HolidayAnchorParser] *)

Record parser := mk_parser {
  _target_div_id : str;
  _inside_target : bool;
  _target_depth : Z;
  _capture : bool;
  _buffer : list str;
  _holidays : list str
}.

Definition parser_init (target_div_id : str) : parser :=
  mk_parser target_div_id false 0 false [] [].

Definition handle_starttag (p : parser) (tag : str)
           (attrs : list (str * option str)) : parser :=
  if str_eqb tag (u "div") then
    if _inside_target p then
      mk_parser (_target_div_id p) true (_target_depth p + 1)
                (_capture p) (_buffer p) (_holidays p)
    else
      match attr_get attrs (u "id") with
      | Some (Some v) =>
        if str_eqb v (_target_div_id p)
        then mk_parser (_target_div_id p) true 1
                       (_capture p) (_buffer p) (_holidays p)
        else p
      | _ => p
      end
  else if negb (_inside_target p) then p
  else if str_eqb tag (u "a") then
    let href := match attr_get attrs (u "href") with
                | Some (Some h) => h
                | _ => []
                end in
    if str_in (u "/holidays/0/0/") href
    then mk_parser (_target_div_id p) (_inside_target p) (_target_depth p)
                   true [] (_holidays p)
    else p
  else p.

Definition handle_endtag (p : parser) (tag : str) : parser :=
  if _inside_target p && str_eqb tag (u "div") then
    let depth := (_target_depth p - 1)%Z in
    if (depth <=? 0)%Z
    then mk_parser (_target_div_id p) false 0
                   (_capture p) (_buffer p) (_holidays p)
    else mk_parser (_target_div_id p) true depth
                   (_capture p) (_buffer p) (_holidays p)
  else if str_eqb tag (u "a") && _capture p then
    let text := strip (List.concat (_buffer p)) in
    let found := match text with
                 | [] => _holidays p
                 | _ => _holidays p ++ [text]
                 end in
    mk_parser (_target_div_id p) (_inside_target p) (_target_depth p)
              false [] found
  else p.

Definition handle_data (p : parser) (data : str) : parser :=
  if _capture p
  then mk_parser (_target_div_id p) (_inside_target p) (_target_depth p)
                 true (_buffer p ++ [data]) (_holidays p)
  else p.

Definition handle (p : parser) (e : html_event) : parser :=
  match e with
  | StartTag tag attrs => handle_starttag p tag attrs
  | EndTag tag => handle_endtag p tag
  | Data data => handle_data p data
  end.

(** The handler calls of one [feed], in order. *)
Definition run (p : parser) (events : list html_event) : parser :=
  fold_left handle events p.

(** ** Module state and its surroundings *)

Definition path := str.

(** What stands at a path: nothing; a file that [json.loads(read_text())]
    cannot read (it raises [e]); or a file that it reads as [v]. *)
Inductive file :=
  | Missing
  | Corrupt (e : exn)
  | Document (v : pyval).

(** The module's globals, the file system, and what went out: the
    documents handed to [write_text] (latest first) and the number of
    requests sent to the remote page.  [_autopost_event] is the registered
    [asyncio.Event], if any, with its flag. *)
Record world := mk_world {
  _cache_file : option path;
  _cache_payload : option dict;
  _cached_result : option HolidayResult;
  _autopost_event : option bool;
  disk : list (path * file);
  writes : list (path * dict);
  fetches : nat
}.

(** What the surroundings answer during one call: what the clock of the
    scheduler's zone shows (the date and time of [datetime.now(MOSCOW_TZ)])
    and the local calendar date ([date.today()]), the outcome of the HTTP
    request of [_download_html] (the page text, or the exception it
    raises), and the exception [write_text] raises, if it does. *)
Record env := mk_env {
  clock : datetime;
  today : date;
  response : result str;
  write_error : option exn
}.

Fixpoint file_at (fs : list (path * file)) (p : path) : file :=
  match fs with
  | [] => Missing
  | (q, f) :: fs' => if str_eqb q p then f else file_at fs' p
  end.

(** Code that reads and writes the globals and may raise. *)
Definition M (A : Type) := world -> result A * world.

Definition ret {A} (a : A) : M A := fun w => (Ok a, w).
Definition raise {A} (e : exn) : M A := fun w => (Raise e, w).
Definition bind {A B} (m : M A) (k : A -> M B) : M B :=
  fun w => match m w with
           | (Ok a, w') => k a w'
           | (Raise e, w') => (Raise e, w')
           end.
Definition lift {A} (r : result A) : M A := fun w => (r, w).

Notation "x <- m ;; k" := (bind m (fun x => k))
  (at level 61, m at next level, right associativity).
Notation "m ;;; k" := (bind m (fun _ => k))
  (at level 61, right associativity).

Definition set_cache_file (p : path) : M unit := fun w =>
  (Ok tt, mk_world (Some p) (_cache_payload w) (_cached_result w)
                   (_autopost_event w) (disk w) (writes w) (fetches w)).

Definition set_cache_payload (d : dict) : M unit := fun w =>
  (Ok tt, mk_world (_cache_file w) (Some d) (_cached_result w)
                   (_autopost_event w) (disk w) (writes w) (fetches w)).

Definition _cache_store (r : HolidayResult) : M unit := fun w =>
  (Ok tt, mk_world (_cache_file w) (_cache_payload w) (Some r)
                   (_autopost_event w) (disk w) (writes w) (fetches w)).

Definition register_autopost_event : M unit := fun w =>
  (Ok tt, mk_world (_cache_file w) (_cache_payload w) (_cached_result w)
                   (Some false) (disk w) (writes w) (fetches w)).

Definition _notify_autopost_update : M unit := fun w =>
  match _autopost_event w with
  | Some _ =>
    (Ok tt, mk_world (_cache_file w) (_cache_payload w) (_cached_result w)
                     (Some true) (disk w) (writes w) (fetches w))
  | None => (Ok tt, w)
  end.

Section WithEnv.
Context {L : Lib} (E : env).

(** ** Time helpers *)

(** [datetime.now(MOSCOW_TZ)]: the reading of the clock, in the
    scheduler's zone. *)
Definition moscow_now : datetime := replace_tzinfo (clock E) Moscow.

(** [astimezone] gives a moment of the zone it is asked for; asked for
    the zone the moment has, it gives the moment back. *)
Definition _normalize_now (value : option datetime) : result datetime :=
  match value with
  | None => Ok moscow_now
  | Some v =>
    match tzinfo v with
    | None => Ok (replace_tzinfo v Moscow)
    | Some Moscow => Ok v
    | Some (OtherZone _) =>
      rbind (astimezone_moscow v) (fun t => Ok (replace_tzinfo t Moscow))
    end
  end.

Definition _format_datetime (value : option datetime) : result pyval :=
  match value with
  | None => Ok PNone
  | Some v =>
    rbind (_normalize_now (Some v)) (fun t => Ok (PStr (datetime_isoformat t)))
  end.

Definition _parse_datetime (value : pyval) : result (option datetime) :=
  if negb (truthy value) then Ok None
  else match value with
       | PStr s =>
         match datetime_fromisoformat s with
         | None => Ok None
         | Some parsed =>
           match tzinfo parsed with
           | None => Ok (Some (replace_tzinfo parsed Moscow))
           | Some _ => Ok (Some parsed)
           end
         end
       | _ => Raise (mk_exn TypeError (u "fromisoformat: argument must be str"))
       end.

Definition MSG_TIME_FORMAT : str := u "Время должно быть в формате ЧЧ:ММ".
Definition MSG_TIME_RANGE : str := u "Недопустимое значение часов или минут".

(** The parameter is a [str]; the guard for other types does not arise. *)
Definition _normalize_time (value : str) : result str :=
  let valuestrip := strip value in
  match valuestrip with
  | [] => Raise (mk_exn ValueError MSG_TIME_FORMAT)
  | _ =>
    match split 58%N valuestrip with
    | [hour; minute] =>
      match int hour, int minute with
      | Some hour_int, Some minute_int =>
        if ((0 <=? hour_int) && (hour_int <=? 23)
            && (0 <=? minute_int) && (minute_int <=? 59))%Z
        then Ok (format_0d 2 hour_int ++ [58%N] ++ format_0d 2 minute_int)
        else Raise (mk_exn ValueError MSG_TIME_RANGE)
      | _, _ => Raise (mk_exn ValueError MSG_TIME_FORMAT)
      end
    | _ => Raise (mk_exn ValueError MSG_TIME_FORMAT)
    end
  end.

(** ** The cache document *)

Definition _serialize_day (target_date : date) (names : list str)
           (at_ : datetime) : result dict :=
  rbind (_format_datetime (Some at_)) (fun stamp =>
  Ok [ (u "date", PStr (date_isoformat target_date));
       (u "holidays", PList (map PStr names));
       (u "fetched_at", stamp);
       (u "source_url", PStr CALEND_RU_URL) ]).

Definition MSG_NONE_FOUND : str := u "Не найдено праздников на сегодня.".

Definition _payload_entry_to_result (entry : pyval)
  : result (option HolidayResult) :=
  rbind (as_dict entry) (fun entry =>
  let raw_date := get entry (u "date") in
  if negb (truthy raw_date) then Ok None
  else match raw_date with
       | PStr s =>
         match date_fromisoformat s with
         | None => Ok None
         | Some parsed_date =>
           rbind (tuple (get_default entry (u "holidays") (PList []))) (fun hs =>
           rbind (_parse_datetime (get entry (u "fetched_at"))) (fun parsed =>
           rbind (match parsed with
                  | Some t => Ok t
                  | None => _normalize_now None
                  end) (fun fetched =>
           let url := if truthy (get entry (u "source_url"))
                      then get entry (u "source_url")
                      else PStr CALEND_RU_URL in
           let err := match hs with
                      | [] => Some MSG_NONE_FOUND
                      | _ => None
                      end in
           Ok (Some (mk_result parsed_date hs url fetched err)))))
         end
       | _ => Raise (mk_exn TypeError (u "fromisoformat: argument must be str"))
       end).

Definition _default_payload (autopost_time : str) : result dict :=
  rbind (_normalize_now None) (fun moment =>
  rbind (_format_datetime (Some moment)) (fun updated_at =>
  rbind (_serialize_day (dt_date moment) [] moment) (fun today_slot =>
  rbind (add_days (dt_date moment) 1) (fun next =>
  rbind (_serialize_day next [] moment) (fun tomorrow_slot =>
  Ok [ (u "autopost_time", PStr autopost_time);
       (u "updated_at", updated_at);
       (u "today", PDict today_slot);
       (u "tomorrow", PDict tomorrow_slot) ]))))).

(** [write_text] either stores the document or raises; only an OSError is
    caught (and logged).  Reading back what was stored gives the document
    again. *)
Definition _write_payload (payload : dict) (cache_path : option path)
  : M unit := fun w =>
  let target_path := match cache_path with
                     | Some p => Some p
                     | None => _cache_file w
                     end in
  match target_path with
  | None => (Ok tt, w)
  | Some p =>
    let attempted := (p, payload) :: writes w in
    match write_error E with
    | None =>
      (Ok tt, mk_world (_cache_file w) (_cache_payload w) (_cached_result w)
                       (_autopost_event w)
                       ((p, Document (PDict payload)) :: disk w)
                       attempted (fetches w))
    | Some e =>
      let w' := mk_world (_cache_file w) (_cache_payload w)
                         (_cached_result w) (_autopost_event w) (disk w)
                         attempted (fetches w) in
      if caught_by e [OSError] then (Ok tt, w') else (Raise e, w')
    end
  end.

Definition fill_autopost_time (default_autopost_time : str) (payload : dict)
  : dict :=
  if negb (truthy (get payload (u "autopost_time")))
  then setitem payload (u "autopost_time") (PStr default_autopost_time)
  else payload.

Definition fill_today (payload : dict) : result dict :=
  if negb (truthy (get payload (u "today")))
  then rbind (_normalize_now None) (fun moment =>
       rbind (_serialize_day (today E) [] moment) (fun slot =>
       Ok (setitem payload (u "today") (PDict slot))))
  else Ok payload.

Definition fill_tomorrow (payload : dict) : result dict :=
  if negb (truthy (get payload (u "tomorrow")))
  then rbind (add_days (today E) 1) (fun next =>
       rbind (_normalize_now None) (fun moment =>
       rbind (_serialize_day next [] moment) (fun slot =>
       Ok (setitem payload (u "tomorrow") (PDict slot)))))
  else Ok payload.

Definition _load_or_init_payload (cache_path : path)
           (default_autopost_time : str) : M dict := fun w =>
  let loaded : result pyval :=
    match file_at (disk w) cache_path with
    | Missing => rbind (_default_payload default_autopost_time)
                       (fun d => Ok (PDict d))
    | Corrupt e =>
      if caught_by e [JSONDecodeError; OSError]
      then rbind (_default_payload default_autopost_time)
                 (fun d => Ok (PDict d))
      else Raise e
    | Document v => Ok v
    end in
  (payload <- lift (rbind loaded as_dict) ;;
   let payload := fill_autopost_time default_autopost_time payload in
   payload <- lift (fill_today payload) ;;
   payload <- lift (fill_tomorrow payload) ;;
   _write_payload payload (Some cache_path) ;;;
   ret payload) w.

Definition initialize_holiday_cache (cache_path : path)
           (default_autopost_time : str) : M unit :=
  set_cache_file cache_path ;;;
  payload <- _load_or_init_payload cache_path default_autopost_time ;;
  set_cache_payload payload ;;;
  let entry := get_default payload (u "today") (PDict []) in
  result <- lift (_payload_entry_to_result entry) ;;
  match result with
  | Some r => _cache_store r
  | None => ret tt
  end.

Definition _ensure_payload : M dict := fun w =>
  match _cache_payload w with
  | Some payload => (Ok payload, w)
  | None =>
    match _cache_file w with
    | None =>
      (Raise (mk_exn RuntimeError (u "Holiday cache is not initialized")), w)
    | Some p =>
      (payload <- _load_or_init_payload p (u "00:00") ;;
       set_cache_payload payload ;;;
       ret payload) w
    end
  end.

(** [payload] is the module's own dictionary, so the assignment to its
    key changes [_cache_payload]. *)
Definition update_autopost_time (value : str) : M str :=
  normalized <- lift (_normalize_time value) ;;
  payload <- _ensure_payload ;;
  if eq_str (get payload (u "autopost_time")) normalized then ret normalized
  else
    let payload := setitem payload (u "autopost_time") (PStr normalized) in
    set_cache_payload payload ;;;
    _write_payload payload None ;;;
    _notify_autopost_update ;;;
    ret normalized.

(** The body of the loop of [get_cached_holiday_result] for one key:
    [Some r] when it returns [r], [None] when it goes on to the next key. *)
Definition cached_slot (payload : dict) (key : str) (target_date : date)
  : result (option (option HolidayResult)) :=
  let entry := if truthy (get payload key) then get payload key
               else PDict [] in
  rbind (as_dict entry) (fun fields =>
  let raw_date := get fields (u "date") in
  if negb (truthy raw_date) then Ok None
  else match raw_date with
       | PStr s =>
         match date_fromisoformat s with
         | None => Ok None
         | Some entry_date =>
           if date_eqb entry_date target_date
           then rbind (_payload_entry_to_result entry)
                      (fun r => Ok (Some r))
           else Ok None
         end
       | _ => Raise (mk_exn TypeError (u "fromisoformat: argument must be str"))
       end).

Fixpoint cached_slots (payload : dict) (keys : list str) (target_date : date)
  : result (option HolidayResult) :=
  match keys with
  | [] => Ok None
  | key :: rest =>
    rbind (cached_slot payload key target_date) (fun found =>
    match found with
    | Some r => Ok r
    | None => cached_slots payload rest target_date
    end)
  end.

Definition get_cached_holiday_result (target_date : date)
  : M (option HolidayResult) :=
  payload <- _ensure_payload ;;
  lift (cached_slots payload [u "today"; u "tomorrow"] target_date).

(** ** Refresh *)

Definition _download_html : M str := fun w =>
  (response E,
   mk_world (_cache_file w) (_cache_payload w) (_cached_result w)
            (_autopost_event w) (disk w) (writes w) (S (fetches w))).

(** A parser of its own for every call; what the handlers collected
    before [feed] raises is lost with it. *)
Definition _parse_holidays (html : str) (target_date : date)
  : result (list str) :=
  rbind (html_events html) (fun events =>
  Ok (_holidays (run (parser_init (u "div_" ++ date_strftime target_date))
                     events))).

(** What [refresh_holiday_cache] does under [_refresh_lock] once the
    page text is there: no [await] is left, so it runs in one piece.
    [payload] is the module's own dictionary: each assignment to one of
    its keys changes [_cache_payload] there and then. *)
Definition refresh_with (html : str) (moment : datetime)
  : M (option HolidayResult) :=
  let current_date := dt_date moment in
  let is_near_midnight := ((hour moment =? 23) && (45 <=? minute moment))%Z in
  dates <- lift (if is_near_midnight
                 then rbind (add_days current_date 1) (fun t =>
                      rbind (add_days current_date 2) (fun t' => Ok (t, t')))
                 else rbind (add_days current_date 1) (fun t' =>
                      Ok (current_date, t'))) ;;
  let '(today_date, tomorrow_date) := dates in
  today_holidays <- lift (_parse_holidays html today_date) ;;
  tomorrow_holidays <- lift (_parse_holidays html tomorrow_date) ;;
  payload <- _ensure_payload ;;
  today_slot <- lift (_serialize_day today_date today_holidays moment) ;;
  let payload := setitem payload (u "today") (PDict today_slot) in
  set_cache_payload payload ;;;
  tomorrow_slot <- lift (_serialize_day tomorrow_date tomorrow_holidays
                                        moment) ;;
  let payload := setitem payload (u "tomorrow") (PDict tomorrow_slot) in
  set_cache_payload payload ;;;
  updated_at <- lift (_format_datetime (Some moment)) ;;
  let payload := setitem payload (u "updated_at") updated_at in
  set_cache_payload payload ;;;
  _write_payload payload None ;;;
  slot <- lift (getitem payload (u "today")) ;;
  result <- lift (_payload_entry_to_result slot) ;;
  match result with
  | Some r => _cache_store r ;;; ret (Some r)
  | None => ret None
  end.

(** The body of [async with _refresh_lock]: the download, then the rest. *)
Definition refresh_locked (moment : datetime) : M (option HolidayResult) :=
  html <- _download_html ;;
  refresh_with html moment.

(** One call that runs without another task in between (the lock is free
    when it starts).  The moment is fixed before the lock is taken. *)
Definition refresh_holiday_cache (now : option datetime)
  : M (option HolidayResult) :=
  moment <- lift (_normalize_now now) ;;
  refresh_locked moment.

Definition ensure_holidays_for_date (target_date : date)
  : M (option HolidayResult) :=
  cached <- get_cached_holiday_result target_date ;;
  match cached with
  | Some r => ret (Some r)
  | None =>
    refresh_holiday_cache None ;;;
    get_cached_holiday_result target_date
  end.

Definition MSG_STALE : str :=
  u "Не удалось обновить данные о праздниках, показаны сохранённые ранее.".
Definition MSG_FETCH_FAILED : str :=
  u "Не удалось получить данные о праздниках.".

(** [try: ... except Exception]: every exception class is caught, the
    changes made before the exception stay. *)
Definition try_refresh (moment : datetime) : M (option HolidayResult) :=
  fun w => match refresh_holiday_cache (Some moment) w with
           | (Ok r, w') => (Ok r, w')
           | (Raise e, w') =>
             if caught_by e [Exception] then (Ok None, w') else (Raise e, w')
           end.

Definition serve_fallback (moment : datetime) (target_date : date)
  : M HolidayResult :=
  cached <- get_cached_holiday_result target_date ;;
  match cached with
  | Some c =>
    let stale := mk_result (hr_date c) (holidays c) (source_url c)
                           (fetched_at c) (Some MSG_STALE) in
    _cache_store stale ;;; ret stale
  | None =>
    let fallback := mk_result target_date [] (PStr CALEND_RU_URL) moment
                              (Some MSG_FETCH_FAILED) in
    _cache_store fallback ;;; ret fallback
  end.

Definition refresh_or_fallback (moment : datetime) (target_date : date)
  : M HolidayResult :=
  refreshed <- try_refresh moment ;;
  match refreshed with
  | Some r => ret r
  | None => serve_fallback moment target_date
  end.

Definition get_today_holidays (now : option datetime) (force_refresh : bool)
  : M HolidayResult :=
  moment <- lift (_normalize_now now) ;;
  let target_date := dt_date moment in
  if negb force_refresh then
    cached <- get_cached_holiday_result target_date ;;
    match cached with
    | Some c => _cache_store c ;;; ret c
    | None => refresh_or_fallback moment target_date
    end
  else refresh_or_fallback moment target_date.

(** ** Headline choice *)

Definition mentions_russia (item : str) : bool :=
  str_in (u "россия") (lower item) || str_in (u "russia") (lower item).

Definition select_autopost_holiday (names : list str) : option str :=
  match names with
  | [] => None
  | first :: _ =>
    let without_russia :=
      filter (fun item => negb (str_in (u "россия") (lower item))
                          && negb (str_in (u "russia") (lower item))) names in
    match without_russia with
    | chosen :: _ => Some chosen
    | [] => Some first
    end
  end.

End WithEnv.

End Holidays.

(* ================================================================== *)
(** * bot/messages.py                                                  *)
(* ================================================================== *)

Module Messages.
Import Py Holidays.

Section WithLib.
Context {L : Lib}.

Definition _select_holiday_emoji (holiday_name : str) : str :=
  let name_lower := lower holiday_name in
  if str_in (u "рождеств") name_lower || str_in (u "пасх") name_lower
  then u "✝️"
  else if str_in (u "нов") name_lower || str_in (u "ёлк") name_lower
  then u "🎄"
  else if str_in (u "день рождения") name_lower
          || str_in (u "birthday") name_lower
  then u "🥳"
  else if str_in (u "памяти") name_lower || str_in (u "вспомин") name_lower
  then u "🕯"
  else if str_in (u "день") name_lower && str_in (u "россии") name_lower
  then u "🇷🇺"
  else if str_in (u "мир") name_lower then u "🕊️"
  else if str_in (u "люб") name_lower then u "💞"
  else if str_in (u "косм") name_lower then u "🚀"
  else if str_in (u "арм") name_lower || str_in (u "защитник") name_lower
  then u "🛡️"
  else if str_in (u "семь") name_lower then u "👨‍👩‍👧"
  else u "✨".

(** [f"{_select_holiday_emoji(item)} {item}"]: the call comes first, and
    only a string has [lower]. *)
Definition digest_line (item : pyval) : result str :=
  match item with
  | PStr name => Ok (_select_holiday_emoji name ++ [32%N] ++ name)
  | _ => Raise (mk_exn AttributeError (u "object has no attribute 'lower'"))
  end.

Fixpoint digest_lines (items : list pyval) : result (list str) :=
  match items with
  | [] => Ok []
  | item :: rest =>
    rbind (digest_line item) (fun line =>
    rbind (digest_lines rest) (fun lines => Ok (line :: lines)))
  end.

Definition MSG_NO_HOLIDAYS : str := u "🗓 Сегодня нет праздников.".

Definition format_holidays_digest (result : HolidayResult) (limit : Z)
  : Py.result str :=
  match holidays result with
  | [] => Ok MSG_NO_HOLIDAYS
  | _ =>
    let visible := slice_to (holidays result) limit in
    rbind (digest_lines visible) (fun shown =>
    let lines := [u "🎉 Праздники на сегодня:"; []] ++ shown in
    let remaining := (Z.of_nat (List.length (holidays result))
                      - Z.of_nat (List.length visible))%Z in
    let lines := if (0 <? remaining)%Z
                 then lines ++ [u "… и ещё " ++ str_of_Z remaining]
                 else lines in
    let lines := match error result with
                 | Some (c :: e) => lines ++ [[]; c :: e]
                 | _ => lines
                 end in
    Ok (join [10%N] lines))
  end.

(** The default of the [limit] parameter. *)
Definition DEFAULT_LIMIT : Z := 10.

End WithLib.

End Messages.

(* ================================================================== *)
(** * A reference implementation of the library interface              *)
(* ================================================================== *)

(** Enough of the library to run the code on examples: case mapping for
    Basic Latin, Latin-1 and Cyrillic; a few blocks of decimal digits;
    dates of the form YYYY-MM-DD and times of the form [isoformat]
    prints; zones as fixed offsets from UTC; [%Y] as glibc prints it; and
    a scanner for markup without character references and without
    [script] or [style] elements. *)

Module Reference.
Import Py.

Local Open Scope N_scope.

Definition lower_codepoint (c : codepoint) : codepoint :=
  if (0x41 <=? c) && (c <=? 0x5A) then c + 32
  else if (0xC0 <=? c) && (c <=? 0xDE) && negb (c =? 0xD7) then c + 32
  else if (0x400 <=? c) && (c <=? 0x40F) then c + 80
  else if (0x410 <=? c) && (c <=? 0x42F) then c + 32
  else c.

Definition decimal_of (c : codepoint) : option N :=
  if (0x660 <=? c) && (c <=? 0x669) then Some (c - 0x660)
  else if (0x6F0 <=? c) && (c <=? 0x6F9) then Some (c - 0x6F0)
  else if (0x966 <=? c) && (c <=? 0x96F) then Some (c - 0x966)
  else if (0xFF10 <=? c) && (c <=? 0xFF19) then Some (c - 0xFF10)
  else None.

(** Exactly [n] ASCII digits, read as a number. *)
Fixpoint digits (n : nat) (acc : Z) (s : str) : option (Z * str) :=
  match n with
  | O => Some (acc, s)
  | S n' =>
    match s with
    | c :: t =>
      if (48 <=? c) && (c <=? 57)
      then digits n' (acc * 10 + Z.of_N (c - 48))%Z t
      else None
    | [] => None
    end
  end.

Definition expect (c : codepoint) (s : str) : option str :=
  match s with
  | c' :: t => if c' =? c then Some t else None
  | [] => None
  end.

Definition obind {A B} (o : option A) (k : A -> option B) : option B :=
  match o with
  | Some a => k a
  | None => None
  end.

Definition parse_date (s : str) : option (date * str) :=
  obind (digits 4 0%Z s) (fun '(y, s) =>
  obind (expect 45 s) (fun s =>
  obind (digits 2 0%Z s) (fun '(m, s) =>
  obind (expect 45 s) (fun s =>
  obind (digits 2 0%Z s) (fun '(d, s) =>
  if ((1 <=? y) && (1 <=? m) && (m <=? 12) && (1 <=? d)
      && (d <=? days_in_month y m))%Z
  then Some (mk_date y m d, s)
  else None))))).

Definition fromisoformat_date (s : str) : option date :=
  match parse_date s with
  | Some (d, []) => Some d
  | _ => None
  end.

(** Zones other than the scheduler's are given by their offset from UTC
    in minutes; the scheduler's zone is three hours ahead of UTC. *)
Definition utcoffset (z : tz) : Z :=
  match z with
  | Moscow => 180
  | OtherZone id => Z.of_N id - 1440
  end.

(** The zone [fromisoformat] gives for an offset: a fixed offset, never
    the scheduler's zone itself. *)
Definition zone_of_offset (minutes : Z) : tz :=
  OtherZone (Z.to_N (minutes + 1440)).

Definition print_offset (minutes : Z) : str :=
  (if (minutes <? 0)%Z then [45] else [43])
  ++ format_0d 2 (Z.abs minutes / 60) ++ [58]
  ++ format_0d 2 (Z.abs minutes mod 60).

Definition isoformat_datetime (t : datetime) : str :=
  date_isoformat (dt_date t) ++ [84]
  ++ format_0d 2 (hour t) ++ [58] ++ format_0d 2 (minute t) ++ [58]
  ++ format_0d 2 (second t)
  ++ (if (microsecond t =? 0)%Z then [] else 46 :: format_0d 6 (microsecond t))
  ++ match tzinfo t with
     | None => []
     | Some z => print_offset (utcoffset z)
     end.

Definition parse_fraction (s : str) : option (Z * str) :=
  match s with
  | 46 :: t => digits 6 0%Z t
  | _ => Some (0%Z, s)
  end.

Definition parse_zone (s : str) : option (option tz) :=
  match s with
  | [] => Some None
  | sign :: t =>
    if (sign =? 43) || (sign =? 45) then
      obind (digits 2 0%Z t) (fun '(h, t) =>
      obind (expect 58 t) (fun t =>
      obind (digits 2 0%Z t) (fun '(m, t) =>
      match t with
      | [] =>
        let minutes := (h * 60 + m)%Z in
        Some (Some (zone_of_offset
                      (if sign =? 45 then (- minutes)%Z else minutes)))
      | _ => None
      end)))
    else None
  end.

Definition fromisoformat_datetime (s : str) : option datetime :=
  obind (parse_date s) (fun '(d, s) =>
  match s with
  | [] => Some (mk_datetime d 0 0 0 0 None)
  | _ :: s =>
    obind (digits 2 0%Z s) (fun '(h, s) =>
    obind (expect 58 s) (fun s =>
    obind (digits 2 0%Z s) (fun '(mi, s) =>
    obind (expect 58 s) (fun s =>
    obind (digits 2 0%Z s) (fun '(se, s) =>
    obind (parse_fraction s) (fun '(us, s) =>
    obind (parse_zone s) (fun z =>
    if ((h <=? 23) && (mi <=? 59) && (se <=? 59))%Z
    then Some (mk_datetime d h mi se us z)
    else None)))))))
  end).

(** [d - timedelta(days=1)]; before 0001-01-01 it raises OverflowError. *)
Definition prev_day (d : date) : result date :=
  if (1 <? day d)%Z then Ok (mk_date (year d) (month d) (day d - 1))
  else if (1 <? month d)%Z
  then Ok (mk_date (year d) (month d - 1)
                   (days_in_month (year d) (month d - 1)))
  else if (1 <? year d)%Z then Ok (mk_date (year d - 1) 12 31)
  else Raise (mk_exn OverflowError (u "date value out of range")).

Fixpoint sub_days (d : date) (n : nat) : result date :=
  match n with
  | O => Ok d
  | S n' => rbind (prev_day d) (fun d' => sub_days d' n')
  end.

(** The date and the minute of the day [minutes] minutes after midnight
    of [d], for [minutes] of either sign. *)
Definition shift (d : date) (minutes : Z) : result (date * Z) :=
  let days := (minutes / 1440)%Z in
  rbind (if (days <? 0)%Z then sub_days d (Z.to_nat (- days))
         else add_days d (Z.to_nat days))
        (fun d' => Ok (d', (minutes mod 1440)%Z)).

(** The same instant on the scheduler's clock: first in UTC, then three
    hours on; either step may leave the calendar.  (The code converts
    moments that have a zone only.) *)
Definition to_moscow (t : datetime) : result datetime :=
  match tzinfo t with
  | None => Ok t
  | Some z =>
    rbind (shift (dt_date t) (hour t * 60 + minute t - utcoffset z))
          (fun '(utc_date, utc_minute) =>
    rbind (shift utc_date (utc_minute + 180)) (fun '(date, minute) =>
    Ok (mk_datetime date (minute / 60) (minute mod 60)
                    (second t) (microsecond t) (Some Moscow))))
  end.

(** *** A scanner for markup

    The states of the scan, named after what has been read: text; a
    [<]; a tag with its attributes; the constructs that call no handler
    of the parser class (comments, declarations, processing instructions,
    marked sections). *)

Inductive scan_state :=
  | InText (text : str)
  | AfterLt
  | AfterSlash
  | AfterSlashSpace
  | InEndName (name : str) (spaced : bool)
  | InTagName (closing : bool) (name : str)
  | InAttrs (name : str) (attrs : list (str * option str)) (slash : bool)
  | InAttrName (name : str) (attrs : list (str * option str)) (key : str)
  | AfterAttrName (name : str) (attrs : list (str * option str)) (key : str)
  | AfterEquals (name : str) (attrs : list (str * option str)) (key : str)
  | InValue (name : str) (attrs : list (str * option str)) (key : str)
            (quote : option codepoint) (value : str)
  | InClosing (name : str)
  | AfterBang
  | AfterBangDash
  | InComment (seen : nat)
  | InSkip
  | InMarkedName (raw : str) (spaced : bool)
  | InMarkedBody (double : bool) (seen : nat).

Definition flush_text (text : str) (out : list html_event)
  : list html_event :=
  match text with
  | [] => out
  | _ => out ++ [Data text]
  end.

Definition low (s : str) : str := map lower_codepoint s.

Definition is_letter (c : codepoint) : bool :=
  ((0x41 <=? c) && (c <=? 0x5A)) || ((0x61 <=? c) && (c <=? 0x7A)).

Definition is_name_char (c : codepoint) : bool :=
  is_letter c || ((0x30 <=? c) && (c <=? 0x39))
  || (c =? 45) || (c =? 46) || (c =? 95).

(** What ends the name of a tag. *)
Definition ends_tag_name (c : codepoint) : bool :=
  (c =? 9) || (c =? 10) || (c =? 13) || (c =? 12) || (c =? 32) || (c =? 0).

Definition start_events (name : str) (attrs : list (str * option str))
           (slash : bool) : list html_event :=
  if slash then [StartTag (low name) attrs; EndTag (low name)]
  else [StartTag (low name) attrs].

(** The keywords of a marked section and the end each looks for:
    [Some true] for []]>], [Some false] for []>]. *)
Definition marked_keyword (name : str) : option bool :=
  if str_eqb name (u "temp") || str_eqb name (u "cdata")
     || str_eqb name (u "ignore") || str_eqb name (u "include")
     || str_eqb name (u "rcdata") then Some true
  else if str_eqb name (u "if") || str_eqb name (u "else")
          || str_eqb name (u "endif") then Some false
  else None.

Definition marked_body_step (double : bool) (seen : nat) (c : codepoint)
  : scan_state :=
  if double then
    match seen with
    | O => if c =? 93 then InMarkedBody true 1 else InMarkedBody true 0
    | S O => if c =? 93 then InMarkedBody true 2
             else if is_space c then InMarkedBody true 1
             else InMarkedBody true 0
    | _ => if c =? 62 then InText []
           else if (c =? 93) || is_space c then InMarkedBody true 2
           else InMarkedBody true 0
    end
  else
    match seen with
    | O => if c =? 93 then InMarkedBody false 1 else InMarkedBody false 0
    | _ => if c =? 62 then InText []
           else if (c =? 93) || is_space c then InMarkedBody false 1
           else InMarkedBody false 0
    end.

(** [repr] of a string of printable characters and ASCII controls. *)
Definition hex_digit (n : N) : codepoint :=
  if n <? 10 then 48 + n else 87 + n.

Definition escaped (quote : codepoint) (c : codepoint) : str :=
  if (c =? 92) || (c =? quote) then [92; c]
  else if c =? 10 then [92; 110]
  else if c =? 13 then [92; 114]
  else if c =? 9 then [92; 116]
  else if (c <? 32) || (c =? 127)
  then [92; 120; hex_digit (c / 16); hex_digit (c mod 16)]
  else [c].

Definition quoted (s : str) : str :=
  let quote := if existsb (N.eqb 39) s && negb (existsb (N.eqb 34) s)
               then 34 else 39 in
  [quote] ++ flat_map (escaped quote) s ++ [quote].

(** One character; [rest] is the text after it. *)
Definition scan_step (state : scan_state) (out : list html_event)
           (c : codepoint) (rest : str)
  : result (scan_state * list html_event) :=
  match state with
  | InText text =>
    if c =? 60 then Ok (AfterLt, flush_text text out)
    else Ok (InText (text ++ [c]), out)
  | AfterLt =>
    if is_letter c then Ok (InTagName false [c], out)
    else if c =? 47 then Ok (AfterSlash, out)
    else if c =? 33 then Ok (AfterBang, out)
    else if c =? 63 then Ok (InSkip, out)
    else if c =? 60 then Ok (AfterLt, out ++ [Data [60]])
    else Ok (InText [c], out ++ [Data [60]])
  | AfterSlash =>
    if c =? 62 then Ok (InText [], out)
    else if is_letter c then Ok (InTagName true [c], out)
    else if is_space c then Ok (AfterSlashSpace, out)
    else Ok (InSkip, out)
  | AfterSlashSpace =>
    if c =? 62 then Ok (InText [], out)
    else if is_letter c then Ok (InEndName [c] false, out)
    else if is_space c then Ok (AfterSlashSpace, out)
    else Ok (InSkip, out)
  | InEndName name spaced =>
    if c =? 62 then Ok (InText [], out ++ [EndTag (low name)])
    else if is_space c then Ok (InEndName name true, out)
    else if negb spaced && (is_name_char c || (c =? 58))
    then Ok (InEndName (name ++ [c]) false, out)
    else Ok (InSkip, out)
  | InTagName closing name =>
    if c =? 62 then
      Ok (InText [], out ++ (if closing then [EndTag (low name)]
                             else start_events name [] false))
    else if ends_tag_name c then
      Ok (if closing then InClosing name else InAttrs name [] false, out)
    else if c =? 47 then
      Ok (if closing then InClosing name else InAttrs name [] true, out)
    else Ok (InTagName closing (name ++ [c]), out)
  | InClosing name =>
    if c =? 62 then Ok (InText [], out ++ [EndTag (low name)])
    else Ok (InClosing name, out)
  | InAttrs name attrs slash =>
    if c =? 62 then Ok (InText [], out ++ start_events name attrs slash)
    else if c =? 47 then Ok (InAttrs name attrs true, out)
    else if is_space c then Ok (InAttrs name attrs false, out)
    else Ok (InAttrName name attrs [c], out)
  | InAttrName name attrs key =>
    if c =? 61 then Ok (AfterEquals name attrs key, out)
    else if c =? 62
    then Ok (InText [],
             out ++ start_events name (attrs ++ [(low key, None)]) false)
    else if c =? 47
    then Ok (InAttrs name (attrs ++ [(low key, None)]) true, out)
    else if is_space c then Ok (AfterAttrName name attrs key, out)
    else Ok (InAttrName name attrs (key ++ [c]), out)
  | AfterAttrName name attrs key =>
    if c =? 61 then Ok (AfterEquals name attrs key, out)
    else if c =? 62
    then Ok (InText [],
             out ++ start_events name (attrs ++ [(low key, None)]) false)
    else if c =? 47
    then Ok (InAttrs name (attrs ++ [(low key, None)]) true, out)
    else if is_space c then Ok (AfterAttrName name attrs key, out)
    else Ok (InAttrName name (attrs ++ [(low key, None)]) [c], out)
  | AfterEquals name attrs key =>
    if (c =? 34) || (c =? 39)
    then Ok (InValue name attrs key (Some c) [], out)
    else if (c =? 61) || is_space c then Ok (AfterEquals name attrs key, out)
    else if c =? 62
    then Ok (InText [],
             out ++ start_events name (attrs ++ [(low key, Some [])]) false)
    else Ok (InValue name attrs key None [c], out)
  | InValue name attrs key quote value =>
    match quote with
    | Some q =>
      if c =? q
      then Ok (InAttrs name (attrs ++ [(low key, Some value)]) false, out)
      else Ok (InValue name attrs key quote (value ++ [c]), out)
    | None =>
      if c =? 62
      then Ok (InText [],
               out ++ start_events name (attrs ++ [(low key, Some value)])
                                   false)
      else if is_space c
      then Ok (InAttrs name (attrs ++ [(low key, Some value)]) false, out)
      else Ok (InValue name attrs key None (value ++ [c]), out)
    end
  | AfterBang =>
    if c =? 45 then Ok (AfterBangDash, out)
    else if c =? 91 then Ok (InMarkedName [] false, out)
    else if c =? 62 then Ok (InText [], out)
    else Ok (InSkip, out)
  | AfterBangDash =>
    if c =? 45 then Ok (InComment 0, out)
    else if c =? 62 then Ok (InText [], out)
    else Ok (InSkip, out)
  | InComment seen =>
    match seen with
    | O => Ok (InComment (if c =? 45 then 1 else 0), out)
    | S O => Ok (InComment (if c =? 45 then 2 else 0), out)
    | S (S O) =>
      if c =? 62 then Ok (InText [], out)
      else if c =? 45 then Ok (InComment 2, out)
      else if is_space c then Ok (InComment 3, out)
      else Ok (InComment 0, out)
    | _ =>
      if c =? 62 then Ok (InText [], out)
      else if c =? 45 then Ok (InComment 1, out)
      else if is_space c then Ok (InComment 3, out)
      else Ok (InComment 0, out)
    end
  | InSkip =>
    if c =? 62 then Ok (InText [], out) else Ok (InSkip, out)
  | InMarkedName raw spaced =>
    match raw with
    | [] =>
      if is_letter c then Ok (InMarkedName [c] false, out)
      else Raise (mk_exn AssertionError
                         (u "expected name token at "
                          ++ quoted (firstn 20 (u "<![" ++ c :: rest))))
    | _ =>
      if negb spaced && is_name_char c
      then Ok (InMarkedName (raw ++ [c]) false, out)
      else if is_space c then Ok (InMarkedName (raw ++ [c]) true, out)
      else match marked_keyword (low (strip raw)) with
           | Some double => Ok (marked_body_step double 0 c, out)
           | None =>
             Raise (mk_exn AssertionError
                           (u "unknown status keyword " ++ quoted raw
                            ++ u " in marked section"))
           end
    end
  | InMarkedBody double seen => Ok (marked_body_step double seen c, out)
  end.

Fixpoint scan_from (text : str) (state : scan_state) (out : list html_event)
  : result (list html_event) :=
  match text with
  | [] =>
    match state with
    | InText rest => Ok (flush_text rest out)
    | _ => Ok out
    end
  | c :: rest =>
    match scan_step state out c rest with
    | Ok (state', out') => scan_from rest state' out'
    | Raise e => Raise e
    end
  end.

Definition scan (text : str) : result (list html_event) :=
  scan_from text (InText []) [].

Definition reference : Lib := {|
  lower := map lower_codepoint;
  unicode_decimal := decimal_of;
  date_fromisoformat := fromisoformat_date;
  datetime_isoformat := isoformat_datetime;
  datetime_fromisoformat := fromisoformat_datetime;
  astimezone_moscow := to_moscow;
  strftime_Y := str_of_Z;
  html_events := scan
|}.

End Reference.

(* ================================================================== *)
(** * A deployment to run the code on                                  *)
(* ================================================================== *)

(** The bot's default cache path, two moments of one day on the
    scheduler's clock, a page with the sections of two days, and the
    stores the examples start from. *)

Module Scenario.
Import Py Holidays.

Definition cache_path : path := u "data/holidays.json".

Definition jan7 : date := mk_date 2024 1 7.
Definition jan8 : date := mk_date 2024 1 8.
Definition jan9 : date := mk_date 2024 1 9.

Definition noon : datetime := mk_datetime jan7 12 0 0 0 (Some Moscow).
Definition late : datetime := mk_datetime jan7 23 50 0 0 (Some Moscow).

Definition page : str :=
  u "<html><body><a href='/holidays/0/0/9/'>Вне раздела</a>" ++
  u "<div id='div_2024-01-07'><div class='block'>" ++
  u "<a href='/holidays/0/0/1/'> Рождество Христово </a></div>" ++
  u "<a href='/events/5/'>Событие</a>" ++
  u "<a href='/holidays/0/0/2/'>День детского кино</a></div>" ++
  u "<div id='div_2024-01-08'>" ++
  u "<a href='/holidays/0/0/3/'>День России</a></div></body></html>".

Definition online (clock : datetime) : env :=
  mk_env clock (dt_date clock) (Ok page) None.

Definition offline (clock : datetime) : env :=
  mk_env clock (dt_date clock)
         (Raise (mk_exn RuntimeError
                        (u "Ошибка сети при обращении к calend.ru")))
         None.

(** Before start-up: no globals set, no file. *)
Definition blank : world := mk_world None None None None [] [] 0.

(** A document saved on January 7th with one holiday for that day and
    none for the next, and the store that holds it. *)
Definition saved : dict :=
  [ (u "autopost_time", PStr (u "09:00"));
    (u "updated_at", PStr (u "2024-01-07T00:05:00+03:00"));
    (u "today",
     PDict [ (u "date", PStr (u "2024-01-07"));
             (u "holidays", PList [PStr (u "Старый праздник")]);
             (u "fetched_at", PStr (u "2024-01-07T00:05:00+03:00"));
             (u "source_url", PStr CALEND_RU_URL) ]);
    (u "tomorrow",
     PDict [ (u "date", PStr (u "2024-01-08"));
             (u "holidays", PList []);
             (u "fetched_at", PStr (u "2024-01-07T00:05:00+03:00"));
             (u "source_url", PStr CALEND_RU_URL) ]) ].

Definition stocked : world :=
  mk_world (Some cache_path) (Some saved) None (Some false)
           [(cache_path, Document (PDict saved))] [] 0.

(** A cache file edited by hand, or written by another program: the date
    of its tomorrow slot is a number instead of a text; and the state
    before start-up with that file in place. *)
Definition hand_edited : dict :=
  [ (u "autopost_time", PStr (u "09:00"));
    (u "tomorrow", PDict [ (u "date", PInt 20240108) ]) ].

Definition edited : world :=
  mk_world None None None None
           [(cache_path, Document (PDict hand_edited))] [] 0.

End Scenario.

(* ================================================================== *)
(** * Properties of the headline choice                                *)
(* ================================================================== *)

Module HeadlineProps.
Import Py Holidays.

Section WithLib.
Context {L : Lib}.

(** The first element of a list that passes a test. *)
Lemma filter_head {A} (keep : A -> bool) (l : list A) :
  hd_error (filter keep l) = find keep l.
Proof.
  induction l as [|x l IH]; simpl; [reflexivity|].
  destruct (keep x); simpl; [reflexivity | exact IH].
Qed.

(** X2: the rule the code implements: nothing for the empty list;
    otherwise the first name in which neither keyword occurs (after
    lower-casing), and the first name of all when there is none. *)
Theorem select_autopost_holiday_rule (names : list str) :
  select_autopost_holiday names =
  match names with
  | [] => None
  | first :: _ =>
    match find (fun item => negb (mentions_russia item)) names with
    | Some chosen => Some chosen
    | None => Some first
    end
  end.
Proof.
  destruct names as [|first rest]; [reflexivity|].
  unfold select_autopost_holiday.
  rewrite <- filter_head.
  assert (E : forall item,
             negb (str_in (u "россия") (lower item))
             && negb (str_in (u "russia") (lower item))
             = negb (mentions_russia item)).
  { intros item. unfold mentions_russia. now rewrite negb_orb. }
  rewrite (filter_ext _ _ E).
  destruct (filter _ (first :: rest)); reflexivity.
Qed.

(** The two other worked examples: an empty list gives nothing, a single
    name gives that name. *)
Lemma select_autopost_holiday_empty :
  select_autopost_holiday [] = None.
Proof. reflexivity. Qed.

Lemma select_autopost_holiday_single (name : str) :
  select_autopost_holiday [name] = Some name.
Proof.
  unfold select_autopost_holiday. cbn [filter].
  destruct (negb (str_in (u "россия") (lower name))
            && negb (str_in (u "russia") (lower name))); reflexivity.
Qed.

(** C2 (the first worked example, on the code): lower-cased, the name of
    Russia Day reads "день россии", in which the keyword "россия" does not
    occur; so the name is not skipped, and it is the headline although a
    second holiday follows it. *)
Theorem select_autopost_holiday_keeps_russia_day :
  lower (u "День России") = u "день россии" ->
  select_autopost_holiday [u "День России"; u "Прадник мороженого"]
  = Some (u "День России").
Proof.
  intros Hlow.
  unfold select_autopost_holiday. cbn [filter]. rewrite Hlow.
  assert (Hkeep : negb (str_in (u "россия") (u "день россии"))
                  && negb (str_in (u "russia") (u "день россии")) = true)
    by (vm_compute; reflexivity).
  rewrite Hkeep. reflexivity.
Qed.

End WithLib.

Lemma select_autopost_holiday_keeps_russia_day_witness :
  lower (Lib := Reference.reference) (u "День России") = u "день россии"
  /\ select_autopost_holiday (L := Reference.reference)
       [u "День России"; u "Прадник мороженого"]
     = Some (u "День России").
Proof.
  split.
  - vm_compute. reflexivity.
  - apply (select_autopost_holiday_keeps_russia_day (L := Reference.reference)).
    vm_compute. reflexivity.
Defined.

End HeadlineProps.

(* ================================================================== *)
(** * Properties of the time-of-day validation                         *)
(* ================================================================== *)

Module TimeProps.
Import Py Holidays.

Lemma str_eqb_eq (a b : str) : str_eqb a b = true <-> a = b.
Proof.
  revert b; induction a as [|x a IH]; intros [|y b]; simpl;
    try (split; [discriminate | discriminate]); [tauto|].
  rewrite andb_true_iff, N.eqb_eq, IH.
  split; [intros [-> ->]; reflexivity | intros H; inversion H; auto].
Qed.

Lemma str_eqb_refl (a : str) : str_eqb a a = true.
Proof. now apply str_eqb_eq. Qed.


Definition in_range (h m : Z) : Prop :=
  (0 <= h <= 23 /\ 0 <= m <= 59)%Z.

Definition in_rangeb (h m : Z) : bool :=
  ((0 <=? h) && (h <=? 23) && (0 <=? m) && (m <=? 59))%Z.

Lemma in_rangeb_spec (h m : Z) : in_rangeb h m = true <-> in_range h m.
Proof.
  unfold in_rangeb, in_range.
  rewrite !andb_true_iff, !Z.leb_le. tauto.
Qed.

(** The number of occurrences of a character. *)
Fixpoint count (c : codepoint) (s : str) : nat :=
  match s with
  | [] => 0
  | x :: t => (if (x =? c)%N then 1 else 0) + count c t
  end.

Lemma split_length (sep : codepoint) (s : str) :
  List.length (split sep s) = S (count sep s).
Proof.
  induction s as [|x t IH]; simpl; [reflexivity|].
  destruct (x =? sep)%N; simpl.
  - now rewrite IH.
  - destruct (split sep t) as [|p ps]; simpl in *; [discriminate | exact IH].
Qed.

Section WithLib.
Context {L : Lib}.

(** The inputs the validation turns down, by the reason: nothing but
    blanks; not exactly one colon; a field that [int] does not read; a
    field out of range. *)
Inductive malformed : str -> Prop :=
  | Blank s :
      strip s = [] -> malformed s
  | Separators s :
      count 58%N (strip s) <> 1%nat -> malformed s
  | NotNumeric s a b :
      split 58%N (strip s) = [a; b] ->
      int a = None \/ int b = None -> malformed s
  | OutOfRange s a b h m :
      split 58%N (strip s) = [a; b] ->
      int a = Some h -> int b = Some m -> ~ in_range h m -> malformed s.


(** *** Characters [int] can make nothing of *)










Lemma int_rejects_empty : int [] = None.
Proof. reflexivity. Qed.

(** *** Accepted inputs *)






(** *** Rejected inputs *)


(** Every input is either accepted or malformed. *)
Lemma normalize_time_total (s : str) :
  (exists r, _normalize_time s = Ok r) \/ malformed s.
Proof.
  destruct (strip s) as [|c0 t0] eqn:Es; [right; now apply Blank|].
  destruct (split 58%N (strip s)) as [|a [|b [|x xs]]] eqn:Ep.
  - right. apply Separators. pose proof (split_length 58%N (strip s)) as Hl.
    rewrite Ep in Hl. discriminate.
  - right. apply Separators. pose proof (split_length 58%N (strip s)) as Hl.
    rewrite Ep in Hl. simpl in Hl. congruence.
  - destruct (int a) as [h|] eqn:Ea;
      [|right; eapply NotNumeric; eauto].
    destruct (int b) as [m|] eqn:Eb;
      [|right; eapply NotNumeric; eauto].
    destruct (in_rangeb h m) eqn:Er.
    + left. unfold _normalize_time. rewrite Es in *. rewrite Ep, Ea, Eb.
      unfold in_rangeb in Er. rewrite Er. eauto.
    + right. eapply OutOfRange; eauto.
      intros Hr. apply in_rangeb_spec in Hr. congruence.
  - right. apply Separators. pose proof (split_length 58%N (strip s)) as Hl.
    rewrite Ep in Hl. simpl in Hl. congruence.
Qed.


End WithLib.


End TimeProps.

(* ================================================================== *)
(** * Properties of the digest                                         *)
(* ================================================================== *)

Module DigestProps.
Import Py Holidays Messages.

Lemma join_cons (sep p : str) (ps : list str) :
  ps <> [] -> join sep (p :: ps) = p ++ sep ++ join sep ps.
Proof. destruct ps; [congruence | reflexivity]. Qed.

Lemma join_app (sep : str) (lines more : list str) :
  lines <> [] -> more <> [] ->
  join sep (lines ++ more) = join sep lines ++ sep ++ join sep more.
Proof.
  intros Hl Hm. induction lines as [|p ps IH]; [congruence|].
  destruct ps as [|q qs].
  - simpl app. rewrite join_cons by exact Hm. reflexivity.
  - change ((p :: q :: qs) ++ more) with (p :: ((q :: qs) ++ more)).
    rewrite join_cons by discriminate.
    rewrite IH by discriminate.
    rewrite (join_cons sep p (q :: qs)) by discriminate.
    now rewrite <- !app_assoc.
Qed.

(** The same result without its annotation. *)
Definition without_error (r : HolidayResult) : HolidayResult :=
  mk_result (hr_date r) (holidays r) (source_url r) (fetched_at r) None.

Section WithLib.
Context {L : Lib}.

(** C10: for a result with no holidays the digest is the fixed sentence,
    whatever annotation the result carries.  For a result with holidays
    the annotation, when there is one (and it is not the empty string), is
    the last line, after an empty line, of what the digest would be
    without it; with no annotation nothing is added. *)
Theorem format_holidays_digest_annotation
        (r : HolidayResult) (limit : Z) :
  (holidays r = [] -> format_holidays_digest r limit = Ok MSG_NO_HOLIDAYS)
  /\ (holidays r <> [] ->
      forall body,
        format_holidays_digest (without_error r) limit = Ok body ->
        format_holidays_digest r limit =
        Ok (match error r with
            | Some (c :: e) => body ++ [10%N; 10%N] ++ c :: e
            | _ => body
            end)).
Proof.
  split.
  - intros H. unfold format_holidays_digest. now rewrite H.
  - intros Hne body. unfold format_holidays_digest, without_error.
    cbn [holidays error].
    destruct (holidays r) as [|item rest] eqn:Eh; [congruence|].
    destruct (digest_lines (slice_to (item :: rest) limit)) as [shown|e];
      cbn [rbind]; [|discriminate].
    intros H. inversion H as [Hb]; clear H.
    destruct (error r) as [[|c e]|]; try reflexivity.
    f_equal. rewrite join_app; [reflexivity| |discriminate].
    destruct (0 <? _)%Z; discriminate.
Qed.

End WithLib.

Import Scenario.

(** A result served from the cache after a failed refresh. *)
Definition stale_result : HolidayResult :=
  mk_result jan7 [PStr (u "День детского кино")] (PStr CALEND_RU_URL) noon
            (Some MSG_STALE).

Lemma format_holidays_digest_annotation_witness :
  format_holidays_digest (L := Reference.reference)
    (mk_result jan7 [] (PStr CALEND_RU_URL) noon (Some MSG_FETCH_FAILED))
    DEFAULT_LIMIT
  = Ok MSG_NO_HOLIDAYS
  /\ format_holidays_digest (L := Reference.reference) stale_result
                            DEFAULT_LIMIT
     = Ok (u "🎉 Праздники на сегодня:" ++ [10%N; 10%N]
             ++ u "✨ День детского кино" ++ [10%N; 10%N] ++ MSG_STALE).
Proof.
  split.
  - apply (format_holidays_digest_annotation (L := Reference.reference)).
    reflexivity.
  - destruct (format_holidays_digest_annotation
                (L := Reference.reference) stale_result DEFAULT_LIMIT)
      as [_ Hsome].
    rewrite (Hsome ltac:(discriminate)
                   (u "🎉 Праздники на сегодня:" ++ [10%N; 10%N]
                      ++ u "✨ День детского кино"));
      vm_compute; reflexivity.
Defined.

End DigestProps.

(* ================================================================== *)
(** * Properties of the cache store                                    *)
(* ================================================================== *)

Module StoreProps.
Import Py Holidays.
Import TimeProps.

(** ** Dictionaries *)

Lemma lookup_setitem (d : dict) (k k' : str) (v : pyval) :
  lookup (setitem d k v) k' = if str_eqb k k' then Some v else lookup d k'.
Proof.
  induction d as [|[k0 v0] d IH]; simpl; [reflexivity|].
  destruct (str_eqb k0 k) eqn:E0; simpl.
  - apply str_eqb_eq in E0. subst k0.
    destruct (str_eqb k k'); reflexivity.
  - rewrite IH. destruct (str_eqb k0 k') eqn:E1; [|reflexivity].
    apply str_eqb_eq in E1. subst k'.
    destruct (str_eqb k k0) eqn:E2; [|reflexivity].
    apply str_eqb_eq in E2. subst k0.
    rewrite str_eqb_refl in E0. discriminate.
Qed.

Lemma get_setitem_same (d : dict) (k : str) (v : pyval) :
  get (setitem d k v) k = v.
Proof. unfold get. now rewrite lookup_setitem, str_eqb_refl. Qed.

Lemma get_setitem_other (d : dict) (k k' : str) (v : pyval) :
  str_eqb k k' = false -> get (setitem d k v) k' = get d k'.
Proof. intros H. unfold get. now rewrite lookup_setitem, H. Qed.

(** ** The shape of a slot

    What the lookup relies on in a stored slot: the slot is empty (or
    absent), or it is a dictionary whose [date] and [fetched_at] are
    strings (or empty, or absent) and whose [holidays] is a sequence (or
    absent). *)

Definition text_or_empty (v : pyval) : bool :=
  negb (truthy v) || match v with PStr _ => true | _ => false end.

Definition iterable (v : pyval) : bool :=
  match v with
  | PList _ | PStr _ | PDict _ => true
  | _ => false
  end.

Definition slot_shaped (v : pyval) : bool :=
  negb (truthy v)
  || match v with
     | PDict d =>
       text_or_empty (get d (u "date"))
       && iterable (get_default d (u "holidays") (PList []))
       && text_or_empty (get d (u "fetched_at"))
     | _ => false
     end.

Definition document_shaped (payload : dict) : bool :=
  slot_shaped (get payload (u "today"))
  && slot_shaped (get payload (u "tomorrow")).

(** [payload.get(key) or {}] *)
Definition slot_fields (payload : dict) (key : str) : dict :=
  match get payload key with
  | PDict d => d
  | _ => []
  end.

Section WithEnv.
Context {L : Lib} (E : env).

(** The date a slot stores: its [date] text, read as a date. *)
Definition stored_date (payload : dict) (key : str) : option date :=
  match get (slot_fields payload key) (u "date") with
  | PStr (c :: s) => date_fromisoformat (c :: s)
  | _ => None
  end.

(** The holiday list a slot stores. *)
Definition stored_holidays (payload : dict) (key : str) : list pyval :=
  match tuple (get_default (slot_fields payload key) (u "holidays")
                           (PList [])) with
  | Ok items => items
  | Raise _ => []
  end.

(** A result that renders the slot [key] of [payload]. *)
Definition renders (payload : dict) (key : str) (hit : HolidayResult)
  : Prop :=
  stored_date payload key = Some (hr_date hit)
  /\ holidays hit = stored_holidays payload key
  /\ error hit = match holidays hit with
                 | [] => Some MSG_NONE_FOUND
                 | _ => None
                 end.

Lemma tuple_iterable (v : pyval) :
  iterable v = true -> exists items, tuple v = Ok items.
Proof. destruct v; simpl; try discriminate; eauto. Qed.

Lemma parse_datetime_text (v : pyval) :
  text_or_empty v = true -> exists t, _parse_datetime v = Ok t.
Proof.
  unfold text_or_empty, _parse_datetime. intros H.
  destruct (truthy v) eqn:Et; simpl in *; [|eauto].
  destruct v; try discriminate.
  destruct (datetime_fromisoformat s) as [parsed|]; [|eauto].
  destruct (tzinfo parsed); eauto.
Qed.

(** A well-shaped slot never makes the conversion raise. *)
Lemma payload_entry_shaped (d : dict) :
  slot_shaped (PDict d) = true ->
  match get d (u "date") with
  | PStr (c :: s) =>
    match date_fromisoformat (c :: s) with
    | Some parsed =>
      exists hit, _payload_entry_to_result E (PDict d) = Ok (Some hit)
                  /\ hr_date hit = parsed
                  /\ tuple (get_default d (u "holidays") (PList []))
                     = Ok (holidays hit)
                  /\ error hit = match holidays hit with
                                 | [] => Some MSG_NONE_FOUND
                                 | _ => None
                                 end
    | None => _payload_entry_to_result E (PDict d) = Ok None
    end
  | _ => _payload_entry_to_result E (PDict d) = Ok None
  end.
Proof.
  unfold slot_shaped. intros H.
  assert (H' : text_or_empty (get d (u "date"))
               && iterable (get_default d (u "holidays") (PList []))
               && text_or_empty (get d (u "fetched_at")) = true).
  { destruct d; [|exact H].
    vm_compute. reflexivity. }
  clear H. rewrite !andb_true_iff in H'. destruct H' as [[Hd Hh] Hf].
  unfold _payload_entry_to_result. cbn [as_dict rbind].
  unfold text_or_empty in Hd.
  destruct (get d (u "date")) as [| b | z | nz | s | l | kv] eqn:Ed;
    simpl in Hd |- *; try reflexivity; try discriminate;
    try (destruct b; [discriminate|reflexivity]);
    try (rewrite orb_false_r, negb_true_iff in Hd; rewrite Hd; reflexivity).
  destruct s as [|c s]; [reflexivity|]. simpl.
  destruct (date_fromisoformat (c :: s)) as [parsed|]; [|reflexivity].
  destruct (tuple_iterable _ Hh) as [items Hitems].
  destruct (parse_datetime_text _ Hf) as [t Ht].
  rewrite Hitems, Ht. cbn [rbind].
  destruct t as [t|]; cbn [_normalize_now rbind];
    (eexists; split; [reflexivity|]; cbn [hr_date holidays error];
     split; [reflexivity|]; split; [reflexivity|];
     destruct items; reflexivity).
Qed.

(** One key of the lookup on a well-shaped slot: a hit that renders the
    slot when the stored date is the queried one, and otherwise on to the
    next key. *)
Lemma cached_slot_shaped (payload : dict) (key : str) (target : date) :
  slot_shaped (get payload key) = true ->
  (exists hit, cached_slot E payload key target = Ok (Some (Some hit))
               /\ hr_date hit = target /\ renders payload key hit)
  \/ (cached_slot E payload key target = Ok None
      /\ forall dt, stored_date payload key = Some dt ->
                    date_eqb dt target = false).
Proof.
  intros Hs. unfold cached_slot, stored_date, renders, stored_holidays,
               slot_fields.
  destruct (truthy (get payload key)) eqn:Et.
  - unfold slot_shaped in Hs. rewrite Et in Hs. simpl in Hs.
    destruct (get payload key) as [| | | | | |d] eqn:Eg; try discriminate.
    cbn [as_dict rbind].
    assert (Hp := payload_entry_shaped d).
    assert (Hsd : slot_shaped (PDict d) = true).
    { unfold slot_shaped. rewrite Hs. apply orb_true_r. }
    specialize (Hp Hsd). clear Hsd.
    rewrite !andb_true_iff in Hs. destruct Hs as [[Hd _] _].
    unfold text_or_empty in Hd.
    destruct (get d (u "date")) as [| b | z | nz | s | l | kv] eqn:Ed;
      simpl in Hd |- *;
      try (right; split; [reflexivity | discriminate]);
      try discriminate;
      try (destruct b; [discriminate | right; split;
                                       [reflexivity | discriminate]]);
      try (rewrite orb_false_r, negb_true_iff in Hd; rewrite Hd;
           right; split; [reflexivity | discriminate]).
    destruct s as [|c s]; [right; split; [reflexivity | discriminate]|].
    simpl.
    destruct (date_fromisoformat (c :: s)) as [parsed|] eqn:Ep;
      [|right; split; [reflexivity | discriminate]].
    destruct (date_eqb parsed target) eqn:Eq.
    + left. destruct Hp as (hit & Hhit & Hdate & Hitems & Herr).
      rewrite Hhit. cbn [rbind]. exists hit.
      assert (Hpt : parsed = target).
      { unfold date_eqb in Eq. rewrite !andb_true_iff, !Z.eqb_eq in Eq.
        destruct parsed, target; simpl in *. destruct Eq as [[-> ->] ->].
        reflexivity. }
      rewrite Hpt in Hdate, Ep.
      split; [reflexivity|]. split; [exact Hdate|].
      split.
      { unfold stored_date, slot_fields. now rewrite Eg, Ed, Ep, Hdate. }
      split; [now rewrite Hitems | exact Herr].
    + right. split; [reflexivity|]. intros dt Hdt. now inversion Hdt; subst.
  - cbn [as_dict rbind].
    assert (Hempty : get [] (u "date") = PNone) by reflexivity.
    rewrite Hempty. simpl. right. split; [reflexivity|].
    destruct (get payload key) as [| | | | | |d] eqn:Eg;
      try (rewrite Hempty; discriminate).
    destruct d; [rewrite Hempty; discriminate | discriminate].
Qed.



(** On an initialised store with well-shaped slots the lookup returns and
    leaves the store as it was. *)
Lemma cached_lookup_returns (w : world) (payload : dict) (target : date) :
  _cache_payload w = Some payload ->
  document_shaped payload = true ->
  exists found, get_cached_holiday_result E target w = (Ok found, w).
Proof.
  intros Hw Hshape. unfold document_shaped in Hshape.
  apply andb_true_iff in Hshape. destruct Hshape as [Ht Hm].
  unfold get_cached_holiday_result, bind, _ensure_payload, lift.
  rewrite Hw. cbn [cached_slots].
  destruct (cached_slot_shaped payload (u "today") target Ht)
    as [(hit & Hc & _) | (Hc & _)]; rewrite Hc; cbn [rbind]; [eauto|].
  destruct (cached_slot_shaped payload (u "tomorrow") target Hm)
    as [(hit & Hc' & _) | (Hc' & _)]; rewrite Hc'; cbn [rbind]; eauto.
Qed.


(** C9: on an initialised store, setting the autopost time to a valid
    value equal to the stored one returns it and leaves everything as it
    was: no write, no signal.  Setting it to a different valid value
    (with a file system that fails, if at all, with an OSError) changes
    the [autopost_time] field of the document and no other, hands the
    changed document to one write, and sets the registered signal. *)
Theorem update_autopost_time_frame
        (w : world) (payload : dict) (cache_path : path)
        (value normalized : str) :
  _cache_payload w = Some payload ->
  _cache_file w = Some cache_path ->
  _normalize_time value = Ok normalized ->
  (eq_str (get payload (u "autopost_time")) normalized = true ->
   update_autopost_time E value w = (Ok normalized, w))
  /\ (eq_str (get payload (u "autopost_time")) normalized = false ->
      (forall e, write_error E = Some e -> caught_by e [OSError] = true) ->
      exists w',
        update_autopost_time E value w = (Ok normalized, w')
        /\ _cache_payload w'
           = Some (setitem payload (u "autopost_time") (PStr normalized))
        /\ get (setitem payload (u "autopost_time") (PStr normalized))
               (u "autopost_time") = PStr normalized
        /\ (forall k, k <> u "autopost_time" ->
              lookup (setitem payload (u "autopost_time") (PStr normalized)) k
              = lookup payload k)
        /\ writes w'
           = (cache_path,
              setitem payload (u "autopost_time") (PStr normalized))
               :: writes w
        /\ (write_error E = None ->
            file_at (disk w') cache_path
            = Document (PDict (setitem payload (u "autopost_time")
                                       (PStr normalized))))
        /\ _autopost_event w'
           = option_map (fun _ => true) (_autopost_event w)
        /\ _cache_file w' = _cache_file w
        /\ _cached_result w' = _cached_result w
        /\ fetches w' = fetches w).
Proof.
  intros Hp Hf Hn.
  unfold update_autopost_time, bind, lift, _ensure_payload.
  rewrite Hn, Hp. split.
  - intros Heq. now rewrite Heq.
  - intros Heq Hwr. rewrite Heq.
    unfold set_cache_payload, _write_payload, _notify_autopost_update, ret.
    cbn [_cache_file _cache_payload _cached_result _autopost_event disk
         writes fetches].
    rewrite Hf.
    assert (Hother : forall k, k <> u "autopost_time" ->
              lookup (setitem payload (u "autopost_time") (PStr normalized)) k
              = lookup payload k).
    { intros k Hk. rewrite lookup_setitem.
      destruct (str_eqb (u "autopost_time") k) eqn:Ek; [|reflexivity].
      apply str_eqb_eq in Ek. congruence. }
    destruct (write_error E) as [e|] eqn:Ew.
    + rewrite (Hwr e eq_refl).
      destruct (_autopost_event w) eqn:Ev;
        cbn [_cache_file _cache_payload _cached_result _autopost_event disk
             writes fetches];
        rewrite ?Ev; eexists; (split; [reflexivity|]);
        cbn [_cache_file _cache_payload _cached_result _autopost_event disk
             writes fetches option_map];
        repeat (split; [first [reflexivity | apply get_setitem_same
                              | exact Hother | discriminate]|]);
        reflexivity.
    + destruct (_autopost_event w) eqn:Ev;
        cbn [_cache_file _cache_payload _cached_result _autopost_event disk
             writes fetches];
        rewrite ?Ev; eexists; (split; [reflexivity|]);
        cbn [_cache_file _cache_payload _cached_result _autopost_event disk
             writes fetches option_map file_at];
        rewrite ?str_eqb_refl;
        repeat (split; [first [reflexivity | apply get_setitem_same
                              | exact Hother | discriminate]|]);
        reflexivity.
Qed.

(** ** Moments of the scheduler's zone

    Every moment the code works with has passed [_normalize_now], which
    leaves a moment of the scheduler's zone as it is. *)

Lemma normalize_now_zone (now : option datetime) (t : datetime) :
  _normalize_now E now = Ok t -> tzinfo t = Some Moscow.
Proof.
  unfold _normalize_now. destruct now as [v|].
  - destruct (tzinfo v) as [[|z]|] eqn:Ez.
    + intros H. inversion H; subst. exact Ez.
    + destruct (astimezone_moscow v); cbn [rbind]; intros H;
        inversion H; subst; reflexivity.
    + intros H. inversion H; subst. reflexivity.
  - intros H. inversion H; subst. reflexivity.
Qed.

Lemma normalize_now_in_zone (t : datetime) :
  tzinfo t = Some Moscow -> _normalize_now E (Some t) = Ok t.
Proof. intros H. unfold _normalize_now. now rewrite H. Qed.

Lemma format_datetime_in_zone (t : datetime) :
  tzinfo t = Some Moscow ->
  _format_datetime E (Some t) = Ok (PStr (datetime_isoformat t)).
Proof.
  intros H. unfold _format_datetime. now rewrite normalize_now_in_zone.
Qed.

(** The slot [_serialize_day] builds for a moment of the scheduler's
    zone. *)
Definition slot_of (d : date) (names : list str) (at_ : datetime) : dict :=
  [ (u "date", PStr (date_isoformat d));
    (u "holidays", PList (map PStr names));
    (u "fetched_at", PStr (datetime_isoformat at_));
    (u "source_url", PStr CALEND_RU_URL) ].

Lemma serialize_day_in_zone (d : date) (names : list str) (t : datetime) :
  tzinfo t = Some Moscow -> _serialize_day E d names t = Ok (slot_of d names t).
Proof.
  intros H. unfold _serialize_day. now rewrite format_datetime_in_zone.
Qed.

(** ** Initialisation *)

(** The document [_default_payload] builds when the clock shows a day
    before the last of the calendar. *)
Definition default_document (autopost_time : str) (next : date) : dict :=
  [ (u "autopost_time", PStr autopost_time);
    (u "updated_at", PStr (datetime_isoformat (moscow_now E)));
    (u "today", PDict (slot_of (dt_date (clock E)) [] (moscow_now E)));
    (u "tomorrow", PDict (slot_of next [] (moscow_now E))) ].

Lemma default_payload_document (autopost_time : str) (next : date) :
  add_days (dt_date (clock E)) 1 = Ok next ->
  _default_payload E autopost_time
  = Ok (default_document autopost_time next).
Proof.
  intros H. unfold _default_payload. cbn [_normalize_now rbind].
  rewrite format_datetime_in_zone by reflexivity. cbn [rbind].
  rewrite !serialize_day_in_zone by reflexivity. cbn [rbind].
  change (dt_date (moscow_now E)) with (dt_date (clock E)).
  rewrite H. reflexivity.
Qed.

Lemma fill_default_document (autopost_time : str) (next : date) :
  rbind (fill_today E
           (fill_autopost_time autopost_time
              (default_document autopost_time next)))
        (fill_tomorrow E)
  = Ok (default_document autopost_time next).
Proof. destruct autopost_time; reflexivity. Qed.

Lemma text_or_empty_text (s : str) : text_or_empty (PStr s) = true.
Proof. unfold text_or_empty. apply orb_true_r. Qed.

Lemma serialized_slot_shaped (d : date) (names : list str) (t : datetime) :
  slot_shaped (PDict (slot_of d names t)) = true.
Proof.
  unfold slot_shaped.
  change (get (slot_of d names t) (u "date"))
    with (PStr (date_isoformat d)).
  change (get_default (slot_of d names t) (u "holidays") (PList []))
    with (PList (map PStr names)).
  change (get (slot_of d names t) (u "fetched_at"))
    with (PStr (datetime_isoformat t)).
  rewrite !text_or_empty_text. apply orb_true_r.
Qed.

Lemma serialized_slot_result (d : date) (names : list str) (t : datetime) :
  exists r, _payload_entry_to_result E (PDict (slot_of d names t)) = Ok r.
Proof.
  pose proof (payload_entry_shaped (slot_of d names t)
                                   (serialized_slot_shaped d names t)) as H.
  destruct (get (slot_of d names t) (u "date"))
    as [| | | | [|c s] | |]; eauto.
  destruct (date_fromisoformat (c :: s)); eauto.
  destruct H as (hit & Hhit & _). eauto.
Qed.

(** The file is not there, or reading it fails in one of the two ways the
    code provides for. *)
Definition recreated (f : file) : Prop :=
  f = Missing
  \/ exists e, f = Corrupt e /\ caught_by e [JSONDecodeError; OSError] = true.

(** X3: with no file, or with a file whose reading raises OSError or
    JSONDecodeError, initialisation succeeds (the clock not showing the
    last day of the calendar, the file system failing at most with an
    OSError): the in-memory document is the default one (the given
    autopost time, two slots with no holidays) and it is written back at
    once. *)
Theorem initialize_recreates
      (w : world) (cache_path : path) (default_autopost_time : str)
      (next : date) :
  recreated (file_at (disk w) cache_path) ->
  add_days (dt_date (clock E)) 1 = Ok next ->
  (forall e, write_error E = Some e -> caught_by e [OSError] = true) ->
  exists w',
    initialize_holiday_cache E cache_path default_autopost_time w
    = (Ok tt, w')
    /\ _cache_file w' = Some cache_path
    /\ _cache_payload w'
       = Some (default_document default_autopost_time next)
    /\ writes w'
       = (cache_path, default_document default_autopost_time next)
           :: writes w
    /\ (write_error E = None ->
        file_at (disk w') cache_path
        = Document (PDict (default_document default_autopost_time next))).
Proof.
  intros Hfile Hnext Hwr.
  unfold initialize_holiday_cache, bind, set_cache_file.
  unfold _load_or_init_payload at 1.
  cbn [disk].
  assert (Hload :
    match file_at (disk w) cache_path with
    | Missing => rbind (_default_payload E default_autopost_time)
                       (fun d => Ok (PDict d))
    | Corrupt e =>
      if caught_by e [JSONDecodeError; OSError]
      then rbind (_default_payload E default_autopost_time)
                 (fun d => Ok (PDict d))
      else Raise e
    | Document v => Ok v
    end = Ok (PDict (default_document default_autopost_time next))).
  { destruct Hfile as [-> | (e & -> & ->)];
      now rewrite (default_payload_document _ _ Hnext). }
  rewrite Hload. unfold bind, lift. cbn [rbind as_dict].
  pose proof (fill_default_document default_autopost_time next) as Hfill.
  destruct (fill_today E
              (fill_autopost_time default_autopost_time
                 (default_document default_autopost_time next)))
    as [filled|e]; [|discriminate].
  cbn [rbind] in Hfill. rewrite Hfill.
  unfold _write_payload, ret, set_cache_payload.
  cbn [_cache_file _cache_payload _cached_result _autopost_event disk
       writes fetches].
  destruct (serialized_slot_result (dt_date (clock E)) [] (moscow_now E))
    as [r Hr].
  assert (Hentry :
    get_default (default_document default_autopost_time next) (u "today")
                (PDict [])
    = PDict (slot_of (dt_date (clock E)) [] (moscow_now E)))
    by reflexivity.
  destruct (write_error E) as [e|] eqn:Ew.
  - rewrite (Hwr e eq_refl). rewrite Hentry, Hr.
    destruct r as [r|]; unfold _cache_store, ret;
      eexists; (split; [reflexivity|]);
      cbn [_cache_file _cache_payload _cached_result _autopost_event disk
           writes fetches];
      repeat (split; [reflexivity|]); discriminate.
  - rewrite Hentry, Hr.
    destruct r as [r|]; unfold _cache_store, ret;
      eexists; (split; [reflexivity|]);
      cbn [_cache_file _cache_payload _cached_result _autopost_event disk
           writes fetches file_at];
      rewrite ?str_eqb_refl;
      repeat (split; [reflexivity|]); reflexivity.
Qed.

(** C8 (on the code): initialisation is fatal for two kinds of damaged
    file.  When reading the file raises UnicodeDecodeError (its bytes are
    not valid UTF-8), the exception is neither of the two the code catches
    and leaves [initialize_holiday_cache]; when the file holds valid JSON
    that is not an object (a list, a number, null), the first access to the
    loaded value raises AttributeError.  In both cases no document is in
    memory afterwards and nothing is written. *)
Theorem initialize_fatal_on_damaged_file
        (w : world) (cache_path : path) (default_autopost_time : str) :
  (forall e,
      file_at (disk w) cache_path = Corrupt e ->
      exc_type e = UnicodeDecodeError ->
      exists w',
        initialize_holiday_cache E cache_path default_autopost_time w
        = (Raise e, w')
        /\ _cache_payload w' = _cache_payload w
        /\ writes w' = writes w)
  /\ (forall items,
      file_at (disk w) cache_path = Document (PList items) ->
      exists e w',
        initialize_holiday_cache E cache_path default_autopost_time w
        = (Raise e, w')
        /\ exc_type e = AttributeError
        /\ _cache_payload w' = _cache_payload w
        /\ writes w' = writes w).
Proof.
  split.
  - intros e Hfile Hcls.
    unfold initialize_holiday_cache, bind, set_cache_file.
    unfold _load_or_init_payload at 1. cbn [disk]. rewrite Hfile.
    unfold caught_by. cbn [existsb]. rewrite Hcls. cbn.
    eexists. split; [reflexivity|]. split; reflexivity.
  - intros items Hfile.
    unfold initialize_holiday_cache, bind, set_cache_file.
    unfold _load_or_init_payload at 1. cbn [disk]. rewrite Hfile.
    cbn. do 2 eexists. split; [reflexivity|]. repeat split.
Qed.

End WithEnv.

Import Scenario.


Lemma update_autopost_time_frame_witness :
  update_autopost_time (L := Reference.reference) (online noon)
                       (u " 9:00 ") stocked
  = (Ok (u "09:00"), stocked)
  /\ exists w',
       update_autopost_time (L := Reference.reference) (online noon)
                            (u "10:30") stocked
       = (Ok (u "10:30"), w')
       /\ writes w'
          = [(cache_path,
              setitem saved (u "autopost_time") (PStr (u "10:30")))]
       /\ _autopost_event w' = Some true.
Proof.
  split.
  - apply (update_autopost_time_frame
             (L := Reference.reference) (online noon) stocked saved
             cache_path (u " 9:00 ") (u "09:00"));
      vm_compute; reflexivity.
  - destruct (update_autopost_time_frame
                (L := Reference.reference) (online noon) stocked saved
                cache_path (u "10:30") (u "10:30")) as [_ Hnew];
      try (vm_compute; reflexivity).
    destruct Hnew as (w' & Hrun & _ & _ & _ & Hwrites & _ & Hevent & _).
    + vm_compute. reflexivity.
    + intros e He. vm_compute in He. discriminate.
    + exists w'. auto.
Defined.

(** A cache file cut off in the middle of a character: reading it raises
    UnicodeDecodeError. *)
Definition undecodable : exn :=
  mk_exn UnicodeDecodeError
         (u "'utf-8' codec can't decode byte 0xd0: unexpected end of data").

Definition damaged : world :=
  mk_world None None None None [(cache_path, Corrupt undecodable)] [] 0.

Lemma initialize_fatal_on_damaged_file_witness :
  file_at (disk damaged) cache_path = Corrupt undecodable
  /\ exc_type undecodable = UnicodeDecodeError
  /\ exists w',
       initialize_holiday_cache (L := Reference.reference) (online noon)
                                cache_path (u "00:00") damaged
       = (Raise undecodable, w')
       /\ _cache_payload w' = None.
Proof.
  split; [vm_compute; reflexivity|]. split; [reflexivity|].
  destruct (initialize_fatal_on_damaged_file
              (L := Reference.reference) (online noon) damaged cache_path
              (u "00:00")) as [Hraise _].
  destruct (Hraise undecodable) as (w' & Hrun & Hdoc & _).
  - vm_compute. reflexivity.
  - reflexivity.
  - exists w'. split; [exact Hrun | exact Hdoc].
Defined.


Lemma initialize_recreates_witness :
  exists w',
    initialize_holiday_cache (L := Reference.reference) (online noon)
                             cache_path (u "00:00") blank = (Ok tt, w')
    /\ _cache_payload w'
       = Some (default_document (L := Reference.reference) (online noon)
                                (u "00:00") jan8)
    /\ writes w'
       = [(cache_path,
           default_document (L := Reference.reference) (online noon)
                            (u "00:00") jan8)].
Proof.
  destruct (initialize_recreates (L := Reference.reference) (online noon)
                                 blank cache_path (u "00:00") jan8)
    as (w' & Hrun & _ & Hdoc & Hwrites & _).
  - left. reflexivity.
  - reflexivity.
  - intros e He. discriminate He.
  - exists w'. auto.
Defined.

End StoreProps.

(* ================================================================== *)
(** * Properties of the refresh                                        *)
(* ================================================================== *)

Module RefreshProps.
Import Py Holidays.
Import TimeProps StoreProps.

Section WithEnv.
Context {L : Lib} (E : env).

(** The two dates a refresh at [moment] fills the slots with. *)
Definition slot_dates (moment : datetime) : result (date * date) :=
  if ((hour moment =? 23) && (45 <=? minute moment))%Z
  then rbind (add_days (dt_date moment) 1) (fun t =>
       rbind (add_days (dt_date moment) 2) (fun t' => Ok (t, t')))
  else rbind (add_days (dt_date moment) 1) (fun t' =>
       Ok (dt_date moment, t')).

(** The document after a refresh at [moment] that found [names] for
    [today_date] and [names'] for [tomorrow_date]. *)
Definition refreshed (payload : dict) (moment : datetime)
           (today_date tomorrow_date : date) (names names' : list str)
  : dict :=
  setitem
    (setitem
       (setitem payload (u "today")
          (PDict (slot_of today_date names moment)))
       (u "tomorrow") (PDict (slot_of tomorrow_date names' moment)))
    (u "updated_at") (PStr (datetime_isoformat moment)).

Lemma lookup_refreshed_today (payload : dict) moment t t' names names' :
  lookup (refreshed payload moment t t' names names') (u "today")
  = Some (PDict (slot_of t names moment)).
Proof. unfold refreshed. now rewrite !lookup_setitem. Qed.

Lemma lookup_refreshed_tomorrow (payload : dict) moment t t' names names' :
  lookup (refreshed payload moment t t' names names') (u "tomorrow")
  = Some (PDict (slot_of t' names' moment)).
Proof. unfold refreshed. now rewrite !lookup_setitem. Qed.

Definition count_fetch (w : world) : world :=
  mk_world (_cache_file w) (_cache_payload w) (_cached_result w)
           (_autopost_event w) (disk w) (writes w) (S (fetches w)).

Lemma write_payload_keeps (payload : dict) (p : option path)
      (w w' : world) (r : result unit) :
  _write_payload E payload p w = (r, w') ->
  _cache_payload w' = _cache_payload w
  /\ _cache_file w' = _cache_file w
  /\ _cached_result w' = _cached_result w
  /\ _autopost_event w' = _autopost_event w
  /\ fetches w' = fetches w.
Proof.
  unfold _write_payload.
  destruct (match p with Some q => Some q | None => _cache_file w end);
    [|intros H; inversion H; subst; auto 6].
  destruct (write_error E) as [e|];
    [destruct (caught_by e [OSError])|];
    intros H; inversion H; subst; cbn; auto 6.
Qed.

(** ** The refresh at a moment of the scheduler's zone

    For such a moment the time stamps cannot fail, and the three
    assignments to the document come to one. *)
Definition refresh_steps (html : str) (moment : datetime)
  : M (option HolidayResult) :=
  dates <- lift (slot_dates moment) ;;
  names <- lift (_parse_holidays html (fst dates)) ;;
  names' <- lift (_parse_holidays html (snd dates)) ;;
  payload <- _ensure_payload E ;;
  set_cache_payload
    (refreshed payload moment (fst dates) (snd dates) names names') ;;;
  _write_payload E
    (refreshed payload moment (fst dates) (snd dates) names names') None ;;;
  result <- lift (_payload_entry_to_result E
                    (PDict (slot_of (fst dates) names moment))) ;;
  match result with
  | Some r => _cache_store r ;;; ret (Some r)
  | None => ret None
  end.

Lemma refresh_with_steps (html : str) (moment : datetime) (w : world) :
  tzinfo moment = Some Moscow ->
  refresh_with E html moment w = refresh_steps html moment w.
Proof.
  intros Hz. unfold refresh_with, refresh_steps.
  fold (slot_dates moment).
  unfold bind, lift.
  destruct (slot_dates moment) as [[t t']|e]; [|reflexivity].
  cbn [fst snd].
  destruct (_parse_holidays html t) as [names|e]; [|reflexivity].
  destruct (_parse_holidays html t') as [names'|e]; [|reflexivity].
  destruct (_ensure_payload E w) as [[payload|e] w0]; [|reflexivity].
  rewrite !serialize_day_in_zone, format_datetime_in_zone by exact Hz.
  unfold set_cache_payload.
  cbn [_cache_file _cache_payload _cached_result _autopost_event disk
       writes fetches].
  fold (refreshed payload moment t t' names names').
  unfold getitem. rewrite lookup_refreshed_today.
  reflexivity.
Qed.

(** What a refresh that returns has done. *)
Lemma refresh_with_returns (html : str) (moment : datetime) (w w' : world)
      (r : option HolidayResult) :
  tzinfo moment = Some Moscow ->
  refresh_with E html moment w = (Ok r, w') ->
  exists today_date tomorrow_date names names' payload w0,
    slot_dates moment = Ok (today_date, tomorrow_date)
    /\ _parse_holidays html today_date = Ok names
    /\ _parse_holidays html tomorrow_date = Ok names'
    /\ _ensure_payload E w = (Ok payload, w0)
    /\ _cache_payload w'
       = Some (refreshed payload moment today_date tomorrow_date
                         names names')
    /\ _payload_entry_to_result E (PDict (slot_of today_date names moment))
       = Ok r
    /\ fetches w' = fetches w0.
Proof.
  intros Hz. rewrite (refresh_with_steps html moment w Hz).
  unfold refresh_steps.
  unfold bind at 1, lift at 1.
  destruct (slot_dates moment) as [[today_date tomorrow_date]|e] eqn:Ed;
    [|discriminate].
  cbn [fst snd].
  unfold bind at 1, lift at 1.
  destruct (_parse_holidays html today_date) as [names|e] eqn:En;
    [|discriminate].
  unfold bind at 1, lift at 1.
  destruct (_parse_holidays html tomorrow_date) as [names'|e] eqn:En';
    [|discriminate].
  unfold bind at 1.
  destruct (_ensure_payload E w) as [[payload|e] w0] eqn:Ep;
    [|discriminate].
  unfold bind at 1, set_cache_payload at 1.
  unfold bind at 1.
  match goal with
  | |- context [_write_payload E ?d None ?w1] =>
    destruct (_write_payload E d None w1) as [[[]|e] w2] eqn:Ew;
      [|discriminate];
    pose proof (write_payload_keeps _ _ _ _ _ Ew) as (K1 & K2 & K3 & K4 & K5)
  end.
  cbn [_cache_payload fetches] in K1, K5.
  unfold bind at 1, lift at 1.
  destruct (_payload_entry_to_result E _) as [res|e] eqn:Eres;
    [|discriminate].
  intros H. exists today_date, tomorrow_date, names, names', payload, w0.
  split; [reflexivity|]. split; [exact En|]. split; [exact En'|].
  split; [reflexivity|].
  destruct res as [hit|];
    unfold bind, _cache_store, ret in H; inversion H; subst;
    cbn [_cache_payload fetches]; auto.
Qed.

Lemma refresh_locked_returns (moment : datetime) (w w' : world)
      (r : option HolidayResult) :
  tzinfo moment = Some Moscow ->
  refresh_locked E moment w = (Ok r, w') ->
  exists html today_date tomorrow_date names names' payload w0,
    response E = Ok html
    /\ slot_dates moment = Ok (today_date, tomorrow_date)
    /\ _parse_holidays html today_date = Ok names
    /\ _parse_holidays html tomorrow_date = Ok names'
    /\ _ensure_payload E (count_fetch w) = (Ok payload, w0)
    /\ _cache_payload w'
       = Some (refreshed payload moment today_date tomorrow_date
                         names names')
    /\ _payload_entry_to_result E (PDict (slot_of today_date names moment))
       = Ok r
    /\ fetches w' = fetches w0.
Proof.
  intros Hz. unfold refresh_locked, bind at 1. unfold _download_html at 1.
  fold (count_fetch w).
  destruct (response E) as [html|e] eqn:Er; [|discriminate].
  intros H. apply refresh_with_returns in H; [|exact Hz].
  destruct H as (t & t' & names & names' & payload & w0 & H).
  exists html, t, t', names, names', payload, w0.
  split; [reflexivity | exact H].
Qed.

(** ** The caller's [now] on the scheduler's clock

    The moment a call works with: without a [now], what the clock shows;
    a [now] without zone is taken as a time of the scheduler's zone; a
    [now] of that zone stays; a [now] of another zone is converted. *)
Inductive local_time : option datetime -> datetime -> Prop :=
  | of_clock :
      local_time None (replace_tzinfo (clock E) Moscow)
  | of_wall_clock v :
      tzinfo v = None -> local_time (Some v) (replace_tzinfo v Moscow)
  | of_zone v :
      tzinfo v = Some Moscow -> local_time (Some v) v
  | of_other_zone v z t :
      tzinfo v = Some (OtherZone z) ->
      astimezone_moscow v = Ok t ->
      local_time (Some v) (replace_tzinfo t Moscow).

Lemma local_time_normalize (now : option datetime) (local : datetime) :
  local_time now local <-> _normalize_now E now = Ok local.
Proof.
  split.
  - intros [ | v Hz | v Hz | v z t Hz Ht]; unfold _normalize_now;
      rewrite ?Hz, ?Ht; reflexivity.
  - unfold _normalize_now. destruct now as [v|].
    + destruct (tzinfo v) as [[|z]|] eqn:Ez.
      * intros H. inversion H; subst. now apply of_zone.
      * destruct (astimezone_moscow v) as [t|e] eqn:Et; cbn [rbind];
          intros H; inversion H; subst. eapply of_other_zone; eauto.
      * intros H. inversion H; subst. now apply of_wall_clock.
    + intros H. inversion H; subst. apply of_clock.
Qed.

Lemma local_time_zone (now : option datetime) (local : datetime) :
  local_time now local -> tzinfo local = Some Moscow.
Proof.
  intros H. apply local_time_normalize in H.
  exact (normalize_now_zone E now local H).
Qed.

(** Minutes since midnight on the clock of [t]. *)
Definition minute_of_day (t : datetime) : Z := hour t * 60 + minute t.

Lemma slot_dates_boundary (moment : datetime) (today_date tomorrow_date : date) :
  (0 <= hour moment <= 23)%Z -> (0 <= minute moment <= 59)%Z ->
  slot_dates moment = Ok (today_date, tomorrow_date) ->
  ((minute_of_day moment < 23 * 60 + 45)%Z ->
   today_date = dt_date moment
   /\ add_days (dt_date moment) 1 = Ok tomorrow_date)
  /\ ((23 * 60 + 45 <= minute_of_day moment)%Z ->
      add_days (dt_date moment) 1 = Ok today_date
      /\ add_days (dt_date moment) 2 = Ok tomorrow_date).
Proof.
  intros Hh Hm. unfold slot_dates, minute_of_day.
  destruct ((hour moment =? 23) && (45 <=? minute moment))%Z eqn:Enear.
  - apply andb_true_iff in Enear. destruct Enear as [H23 H45].
    apply Z.eqb_eq in H23. apply Z.leb_le in H45.
    destruct (add_days (dt_date moment) 1) as [t|e]; [|discriminate].
    destruct (add_days (dt_date moment) 2) as [t'|e]; [|discriminate].
    cbn [rbind]. intros H. inversion H; subst.
    split; [lia | auto].
  - apply andb_false_iff in Enear.
    destruct (add_days (dt_date moment) 1) as [t'|e]; [|discriminate].
    cbn [rbind]. intros H. inversion H; subst.
    split; [auto|]. intros Hge. exfalso.
    destruct Enear as [H23 | H45].
    + apply Z.eqb_neq in H23. lia.
    + apply Z.leb_gt in H45. lia.
Qed.

(** The text a slot stores as its date. *)
Definition stored_date_text (payload : dict) (key : str) : pyval :=
  get (slot_fields payload key) (u "date").

(** C3: when [refresh(now)] returns, [now] has a reading on the
    scheduler's clock (the clock itself without a [now]; the date and time
    of a [now] without zone or of the scheduler's zone; the converted date
    and time of a [now] of another zone), and the document in memory holds
    in its today and tomorrow slots the ISO form of two dates that follow
    from that reading: for a reading strictly before 23:45, its date and
    the day after it; for a reading at or after 23:45, the day after its
    date and the day after that. *)
Theorem refresh_day_boundary
        (now : option datetime) (w w' : world) (r : option HolidayResult) :
  refresh_holiday_cache E now w = (Ok r, w') ->
  (exists local, local_time now local)
  /\ forall local,
      local_time now local ->
      (0 <= hour local <= 23)%Z ->
      (0 <= minute local <= 59)%Z ->
      exists payload today_date tomorrow_date,
        _cache_payload w' = Some payload
        /\ stored_date_text payload (u "today")
           = PStr (date_isoformat today_date)
        /\ stored_date_text payload (u "tomorrow")
           = PStr (date_isoformat tomorrow_date)
        /\ ((minute_of_day local < 23 * 60 + 45)%Z ->
            today_date = dt_date local
            /\ add_days (dt_date local) 1 = Ok tomorrow_date)
        /\ ((23 * 60 + 45 <= minute_of_day local)%Z ->
            add_days (dt_date local) 1 = Ok today_date
            /\ add_days (dt_date local) 2 = Ok tomorrow_date).
Proof.
  intros Hrun. split.
  - unfold refresh_holiday_cache, bind at 1, lift at 1 in Hrun.
    destruct (_normalize_now E now) as [moment|e] eqn:En; [|discriminate].
    exists moment. now apply local_time_normalize.
  - intros local Hlocal Hh Hm.
    pose proof (local_time_zone now local Hlocal) as Hz.
    apply local_time_normalize in Hlocal.
    unfold refresh_holiday_cache, bind at 1, lift at 1 in Hrun.
    rewrite Hlocal in Hrun.
    apply refresh_locked_returns in Hrun; [|exact Hz].
    destruct Hrun as (html & today_date & tomorrow_date & names & names'
                      & payload & w0 & _ & Hdates & _ & _ & _ & Hdoc & _ & _).
    exists (refreshed payload local today_date tomorrow_date names names'),
           today_date, tomorrow_date.
    split; [exact Hdoc|].
    unfold stored_date_text, slot_fields, get.
    rewrite lookup_refreshed_today, lookup_refreshed_tomorrow.
    split; [reflexivity|]. split; [reflexivity|].
    now apply slot_dates_boundary.
Qed.

(** ** Stores that are ready *)

Lemma refreshed_shaped (payload : dict) moment t t' names names' :
  document_shaped (refreshed payload moment t t' names names') = true.
Proof.
  unfold document_shaped, get.
  rewrite lookup_refreshed_today, lookup_refreshed_tomorrow.
  now rewrite !serialized_slot_shaped.
Qed.

(** An initialised store: the document is in memory. *)
Definition initialised (w : world) : Prop :=
  exists payload, _cache_payload w = Some payload.

(** An initialised store with well-shaped slots. *)
Definition ready (w : world) : Prop :=
  exists payload, _cache_payload w = Some payload
                  /\ document_shaped payload = true.

Lemma ready_initialised (w : world) : ready w -> initialised w.
Proof. intros (payload & Hp & _). exists payload. exact Hp. Qed.

Lemma ensure_payload_ready (w : world) (payload : dict) :
  _cache_payload w = Some payload -> _ensure_payload E w = (Ok payload, w).
Proof. intros H. unfold _ensure_payload. now rewrite H. Qed.

(** ** A refresh that goes through *)

Lemma date_isoformat_nonempty (d : date) : date_isoformat d <> [].
Proof.
  unfold date_isoformat. destruct (format_0d 4 (year d)); discriminate.
Qed.

Lemma write_payload_returns (payload : dict) (w : world) :
  (forall e, write_error E = Some e -> caught_by e [OSError] = true) ->
  exists w', _write_payload E payload None w = (Ok tt, w').
Proof.
  intros Hwr. unfold _write_payload.
  destruct (_cache_file w); [|eauto].
  destruct (write_error E) as [e|] eqn:Ew; [|eauto].
  rewrite (Hwr e eq_refl). eauto.
Qed.

(** X1: on an initialised store, at a moment of the scheduler's zone,
    when the page arrives and the parser reads it for both dates, the two
    dates exist, the file system fails at most with an OSError and the
    library reads back the ISO date it printed, a refresh returns a result:
    the date of the today slot with the holidays parsed for that date; the
    document holds the two new slots, and one request was sent. *)
Theorem refresh_locked_goes_through
        (moment : datetime) (w : world) (payload : dict) (html : str)
        (today_date tomorrow_date : date) (names names' : list str) :
  tzinfo moment = Some Moscow ->
  _cache_payload w = Some payload ->
  response E = Ok html ->
  slot_dates moment = Ok (today_date, tomorrow_date) ->
  _parse_holidays html today_date = Ok names ->
  _parse_holidays html tomorrow_date = Ok names' ->
  (forall e, write_error E = Some e -> caught_by e [OSError] = true) ->
  date_fromisoformat (date_isoformat today_date) = Some today_date ->
  exists r w',
    refresh_locked E moment w = (Ok (Some r), w')
    /\ hr_date r = today_date
    /\ holidays r = map PStr names
    /\ _cache_payload w'
       = Some (refreshed payload moment today_date tomorrow_date
                         names names')
    /\ fetches w' = S (fetches w).
Proof.
  intros Hz Hp Hresp Hdates Hnames Hnames' Hwr Hiso.
  unfold refresh_locked, bind at 1. unfold _download_html at 1.
  rewrite Hresp. rewrite refresh_with_steps by exact Hz.
  unfold refresh_steps.
  unfold bind at 1, lift at 1. rewrite Hdates. cbn [fst snd].
  unfold bind at 1, lift at 1. rewrite Hnames.
  unfold bind at 1, lift at 1. rewrite Hnames'.
  unfold bind at 1.
  rewrite (ensure_payload_ready _ payload) by exact Hp.
  unfold bind at 1, set_cache_payload at 1.
  unfold bind at 1.
  match goal with
  | |- context [_write_payload E ?d None ?w1] =>
    destruct (write_payload_returns d w1 Hwr) as [w2 Hw2];
    pose proof (write_payload_keeps _ _ _ _ _ Hw2) as (K1 & _ & _ & _ & K5);
    rewrite Hw2
  end.
  cbn [_cache_payload fetches] in K1, K5.
  unfold bind at 1, lift at 1.
  pose proof (payload_entry_shaped E (slot_of today_date names moment)
                (serialized_slot_shaped _ _ _)) as Hslot.
  change (get (slot_of today_date names moment) (u "date"))
    with (PStr (date_isoformat today_date)) in Hslot.
  change (get_default (slot_of today_date names moment)
                      (u "holidays") (PList []))
    with (PList (map PStr names)) in Hslot.
  pose proof (date_isoformat_nonempty today_date) as Hne.
  destruct (date_isoformat today_date) as [|c s] eqn:Etext; [congruence|].
  rewrite Hiso in Hslot.
  destruct Hslot as (hit & Hhit & Hd & Hh & _).
  rewrite Hhit. unfold bind, _cache_store, ret.
  exists hit. eexists. split; [reflexivity|].
  cbn [_cache_payload fetches]. cbn [tuple] in Hh. inversion Hh.
  repeat split; auto.
Qed.

(** ** What a refresh leaves of the store *)

Lemma write_payload_writes (payload : dict) (w w' : world)
      (r : result unit) :
  _write_payload E payload None w = (r, w') ->
  writes w' = match _cache_file w with
              | Some p => (p, payload) :: writes w
              | None => writes w
              end.
Proof.
  unfold _write_payload. destruct (_cache_file w) as [p|];
    [|intros H; inversion H; subst; reflexivity].
  destruct (write_error E) as [e|];
    [destruct (caught_by e [OSError])|];
    intros H; inversion H; subst; reflexivity.
Qed.

(** Whether it returns or raises, the part of a refresh that follows the
    download leaves the document as it was or with the three refreshed
    keys; it sends no request, keeps the cache path, and writes the
    document at most once, and once when it returns. *)
Lemma refresh_with_effects (html : str) (moment : datetime)
      (w w' : world) (payload : dict) (r : result (option HolidayResult)) :
  tzinfo moment = Some Moscow ->
  _cache_payload w = Some payload ->
  refresh_with E html moment w = (r, w') ->
  (_cache_payload w' = Some payload
   \/ exists t t' names names',
       _cache_payload w' = Some (refreshed payload moment t t' names names'))
  /\ fetches w' = fetches w
  /\ _cache_file w' = _cache_file w
  /\ _autopost_event w' = _autopost_event w
  /\ (writes w' = writes w
      \/ exists p d, _cache_file w = Some p /\ writes w' = (p, d) :: writes w)
  /\ (forall v p, r = Ok v -> _cache_file w = Some p ->
                  exists d, writes w' = (p, d) :: writes w).
Proof.
  intros Hz Hp. rewrite refresh_with_steps by exact Hz.
  unfold refresh_steps.
  unfold bind at 1, lift at 1.
  destruct (slot_dates moment) as [[today_date tomorrow_date]|e];
    [|intros H; inversion H; subst; repeat split; auto; discriminate].
  cbn [fst snd].
  unfold bind at 1, lift at 1.
  destruct (_parse_holidays html today_date) as [names|e];
    [|intros H; inversion H; subst; repeat split; auto; discriminate].
  unfold bind at 1, lift at 1.
  destruct (_parse_holidays html tomorrow_date) as [names'|e];
    [|intros H; inversion H; subst; repeat split; auto; discriminate].
  unfold bind at 1.
  rewrite (ensure_payload_ready w payload Hp).
  unfold bind at 1, set_cache_payload at 1.
  unfold bind at 1.
  match goal with
  | |- context [_write_payload E ?d None ?w1] =>
    destruct (_write_payload E d None w1) as [[[]|e] w2] eqn:Ew;
    pose proof (write_payload_keeps _ _ _ _ _ Ew)
      as (K1 & K2 & _ & K4 & K5);
    pose proof (write_payload_writes _ _ _ _ Ew) as Kw
  end;
    cbn [_cache_payload _cache_file _autopost_event fetches writes]
      in K1, K2, K4, K5, Kw.
  2:{ intros H; inversion H; subst.
      split; [right; eauto|]. split; [exact K5|]. split; [exact K2|].
      split; [exact K4|]. split; [|discriminate].
      destruct (_cache_file w) as [p|]; [right; eauto | left; exact Kw]. }
  unfold bind at 1, lift at 1.
  destruct (_payload_entry_to_result E _) as [[hit|]|e];
    unfold bind, _cache_store, ret;
    intros H; inversion H; subst;
    cbn [_cache_payload _cache_file _autopost_event fetches writes];
    (split; [right; eauto|]); (split; [exact K5|]); (split; [exact K2|]);
    (split; [exact K4|]);
    (split; [destruct (_cache_file w) as [p|];
             [right; eauto | left; exact Kw]|]);
    try discriminate;
    intros v p _ Hfile; rewrite Hfile in Kw; eauto.
Qed.

(** Whether it returns or raises, a refresh leaves the store ready. *)
Lemma refresh_with_keeps_ready (html : str) (moment : datetime)
      (w w' : world) (r : result (option HolidayResult)) :
  tzinfo moment = Some Moscow ->
  ready w -> refresh_with E html moment w = (r, w') -> ready w'.
Proof.
  intros Hz (payload & Hp & Hs) Hrun.
  destruct (refresh_with_effects html moment w w' payload r Hz Hp Hrun)
    as ([Hdoc | (t & t' & names & names' & Hdoc)] & _).
  - exists payload. auto.
  - eexists. split; [exact Hdoc | apply refreshed_shaped].
Qed.

Lemma refresh_locked_keeps_ready (moment : datetime) (w w' : world)
      (r : result (option HolidayResult)) :
  tzinfo moment = Some Moscow ->
  ready w -> refresh_locked E moment w = (r, w') -> ready w'.
Proof.
  intros Hz Hready.
  unfold refresh_locked, bind at 1. unfold _download_html at 1.
  fold (count_fetch w).
  destruct (response E) as [html|e].
  - apply refresh_with_keeps_ready; [exact Hz|].
    destruct Hready as (payload & H). exists payload. exact H.
  - intros H. inversion H; subst. destruct Hready as (payload & H').
    exists payload. exact H'.
Qed.

Lemma refresh_holiday_cache_keeps_ready (now : option datetime)
      (w w' : world) (r : result (option HolidayResult)) :
  ready w -> refresh_holiday_cache E now w = (r, w') -> ready w'.
Proof.
  intros Hready. unfold refresh_holiday_cache, bind at 1, lift at 1.
  destruct (_normalize_now E now) as [moment|e] eqn:En.
  - apply refresh_locked_keeps_ready; [|exact Hready].
    exact (normalize_now_zone E now moment En).
  - intros H. inversion H; subst. exact Hready.
Qed.

(** ** The on-demand query *)

Lemma cached_lookup_ready (target : date) (w : world) :
  ready w ->
  exists found, get_cached_holiday_result E target w = (Ok found, w).
Proof.
  intros (payload & Hp & Hs).
  exact (cached_lookup_returns E w payload target Hp Hs).
Qed.

(** The same result with the stale-cache annotation. *)
Definition annotate_stale (c : HolidayResult) : HolidayResult :=
  mk_result (hr_date c) (holidays c) (source_url c) (fetched_at c)
            (Some MSG_STALE).

(** The made-up result of a failed fetch. *)
Definition fetch_failed (target_date : date) (moment : datetime)
  : HolidayResult :=
  mk_result target_date [] (PStr CALEND_RU_URL) moment
            (Some MSG_FETCH_FAILED).

(** A refresh that did not deliver: it raised, or returned nothing. *)
Definition refresh_fails (moment : datetime) (w w1 : world) : Prop :=
  (exists e, refresh_holiday_cache E (Some moment) w = (Raise e, w1))
  \/ refresh_holiday_cache E (Some moment) w = (Ok None, w1).

(** How the answer [r] of a query at [moment] was chosen. *)
Inductive served (moment : datetime) (force_refresh : bool)
          (w : world) (r : HolidayResult) (w' : world) : Prop :=
  | DirectHit :
      force_refresh = false ->
      get_cached_holiday_result E (dt_date moment) w = (Ok (Some r), w) ->
      fetches w' = fetches w ->
      served moment force_refresh w r w'
  | Fresh w1 :
      (force_refresh = true
       \/ get_cached_holiday_result E (dt_date moment) w = (Ok None, w)) ->
      refresh_holiday_cache E (Some moment) w = (Ok (Some r), w1) ->
      served moment force_refresh w r w'
  | Stale w1 c :
      (force_refresh = true
       \/ get_cached_holiday_result E (dt_date moment) w = (Ok None, w)) ->
      refresh_fails moment w w1 ->
      get_cached_holiday_result E (dt_date moment) w1 = (Ok (Some c), w1) ->
      r = annotate_stale c ->
      served moment force_refresh w r w'
  | Synthetic w1 :
      (force_refresh = true
       \/ get_cached_holiday_result E (dt_date moment) w = (Ok None, w)) ->
      refresh_fails moment w w1 ->
      get_cached_holiday_result E (dt_date moment) w1 = (Ok None, w1) ->
      r = fetch_failed (dt_date moment) moment ->
      served moment force_refresh w r w'.

Lemma refresh_or_fallback_served
      (moment : datetime) (force_refresh : bool) (w : world) :
  ready w ->
  (force_refresh = true
   \/ get_cached_holiday_result E (dt_date moment) w = (Ok None, w)) ->
  exists r w',
    refresh_or_fallback E moment (dt_date moment) w = (Ok r, w')
    /\ served moment force_refresh w r w'.
Proof.
  intros Hready Hwhy.
  unfold refresh_or_fallback, bind at 1. unfold try_refresh.
  destruct (refresh_holiday_cache E (Some moment) w)
    as [[[fresh|]|e] w1] eqn:Er.
  - unfold ret. do 2 eexists. split; [reflexivity|].
    eapply Fresh; eauto.
  - assert (Hready1 : ready w1)
      by (eapply refresh_holiday_cache_keeps_ready;
          [exact Hready | exact Er]).
    destruct (cached_lookup_ready (dt_date moment) w1 Hready1)
      as [found Hfound].
    unfold serve_fallback, bind at 1. rewrite Hfound.
    assert (Hfail : refresh_fails moment w w1) by (right; exact Er).
    destruct found as [c|]; unfold bind, _cache_store, ret;
      do 2 eexists; (split; [reflexivity|]).
    + eapply Stale; eauto.
    + eapply Synthetic; eauto.
  - assert (Hready1 : ready w1)
      by (eapply refresh_holiday_cache_keeps_ready;
          [exact Hready | exact Er]).
    destruct (cached_lookup_ready (dt_date moment) w1 Hready1)
      as [found Hfound].
    cbn [caught_by existsb issubclass orb].
    unfold serve_fallback, bind at 1. rewrite Hfound.
    assert (Hfail : refresh_fails moment w w1) by (left; eauto).
    destruct found as [c|]; unfold bind, _cache_store, ret;
      do 2 eexists; (split; [reflexivity|]).
    + eapply Stale; eauto.
    + eapply Synthetic; eauto.
Qed.

(** C4, as the code has it: on an initialised store with well-shaped
    slots, for a [now] that the scheduler's clock can read ([moment] is
    that reading), a query never raises, whatever the fetch and the
    parser do, and always returns a result.  Without [force_refresh], a
    cached slot for the date of the moment is returned as it is, and
    nothing is fetched.  Otherwise (forced, or no such slot) the result is,
    in this order: what the refresh returns; else the slot the cache then
    holds for that date, with the stale-cache annotation; else the made-up
    empty result with the fetch-failed annotation.  For a [now] of another
    zone that the clock cannot read, the exception of the conversion leaves
    the call and nothing else happens. *)
Theorem get_today_holidays_fallback
        (now : option datetime) (force_refresh : bool) (w : world) :
  ready w ->
  (forall moment,
      local_time now moment ->
      exists r w',
        get_today_holidays E now force_refresh w = (Ok r, w')
        /\ served moment force_refresh w r w')
  /\ (forall v z e,
        now = Some v ->
        tzinfo v = Some (OtherZone z) ->
        astimezone_moscow v = Raise e ->
        get_today_holidays E now force_refresh w = (Raise e, w)).
Proof.
  intros Hready. split.
  - intros moment Hlocal. apply local_time_normalize in Hlocal.
    unfold get_today_holidays, bind at 1, lift at 1. rewrite Hlocal.
    destruct force_refresh; cbn [negb].
    + apply refresh_or_fallback_served; auto.
    + destruct (cached_lookup_ready (dt_date moment) w Hready)
        as [found Hfound].
      unfold bind at 1. rewrite Hfound.
      destruct found as [c|].
      * unfold bind, _cache_store, ret. do 2 eexists.
        split; [reflexivity|]. apply DirectHit; auto.
      * apply refresh_or_fallback_served; auto.
  - intros v z e -> Hz He.
    unfold get_today_holidays, bind at 1, lift at 1, _normalize_now.
    now rewrite Hz, He.
Qed.

End WithEnv.

Import Scenario.

(** Ten minutes to midnight on a wall clock, with no zone given, and the
    same moment as a clock two hours behind the scheduler's shows it. *)
Definition late_unzoned : datetime := mk_datetime jan7 23 50 0 0 None.
Definition late_abroad : datetime :=
  mk_datetime jan7 21 50 0 0 (Some (OtherZone 1500)).

Lemma refresh_day_boundary_witness :
  (exists payload,
      _cache_payload
        (snd (refresh_holiday_cache (L := Reference.reference) (online noon)
                                    None stocked)) = Some payload
      /\ stored_date_text payload (u "today") = PStr (date_isoformat jan7)
      /\ stored_date_text payload (u "tomorrow") = PStr (date_isoformat jan8))
  /\ (exists payload,
         _cache_payload
           (snd (refresh_holiday_cache (L := Reference.reference)
                                       (online noon) (Some late_unzoned)
                                       stocked))
         = Some payload
         /\ stored_date_text payload (u "today") = PStr (date_isoformat jan8)
         /\ stored_date_text payload (u "tomorrow")
            = PStr (date_isoformat jan9))
  /\ (exists payload,
         _cache_payload
           (snd (refresh_holiday_cache (L := Reference.reference)
                                       (online noon) (Some late_abroad)
                                       stocked))
         = Some payload
         /\ stored_date_text payload (u "today") = PStr (date_isoformat jan8)
         /\ stored_date_text payload (u "tomorrow")
            = PStr (date_isoformat jan9)).
Proof.
  split; [|split].
  - destruct (refresh_holiday_cache (L := Reference.reference) (online noon)
                                    None stocked) as [[r|e] w'] eqn:Hrun;
      [|vm_compute in Hrun; discriminate].
    destruct (refresh_day_boundary (L := Reference.reference) (online noon)
                                   None stocked w' r Hrun) as [_ Hslots].
    destruct (Hslots noon)
      as (payload & t & t' & Hdoc & Ht & Ht' & Hbefore & _);
      [apply (of_clock (L := Reference.reference) (online noon))
       | vm_compute; split; discriminate | vm_compute; split; discriminate
       |].
    destruct Hbefore as [-> Hnext]; [vm_compute; reflexivity|].
    vm_compute in Hnext. inversion Hnext; subst t'.
    exists payload. auto.
  - destruct (refresh_holiday_cache (L := Reference.reference) (online noon)
                                    (Some late_unzoned) stocked)
      as [[r|e] w'] eqn:Hrun;
      [|vm_compute in Hrun; discriminate].
    destruct (refresh_day_boundary (L := Reference.reference) (online noon)
                                   (Some late_unzoned) stocked w' r Hrun)
      as [_ Hslots].
    destruct (Hslots late)
      as (payload & t & t' & Hdoc & Ht & Ht' & _ & Hafter);
      [apply (of_wall_clock (L := Reference.reference) (online noon)
                            late_unzoned eq_refl)
       | vm_compute; split; discriminate | vm_compute; split; discriminate
       |].
    destruct Hafter as [Hnext Hnext2]; [vm_compute; discriminate|].
    vm_compute in Hnext, Hnext2.
    inversion Hnext; subst t. inversion Hnext2; subst t'.
    exists payload. auto.
  - destruct (refresh_holiday_cache (L := Reference.reference) (online noon)
                                    (Some late_abroad) stocked)
      as [[r|e] w'] eqn:Hrun;
      [|vm_compute in Hrun; discriminate].
    destruct (refresh_day_boundary (L := Reference.reference) (online noon)
                                   (Some late_abroad) stocked w' r Hrun)
      as [_ Hslots].
    destruct (Hslots late)
      as (payload & t & t' & Hdoc & Ht & Ht' & _ & Hafter);
      [apply (of_other_zone (L := Reference.reference) (online noon)
                            late_abroad 1500 late eq_refl eq_refl)
       | vm_compute; split; discriminate | vm_compute; split; discriminate
       |].
    destruct Hafter as [Hnext Hnext2]; [vm_compute; discriminate|].
    vm_compute in Hnext, Hnext2.
    inversion Hnext; subst t. inversion Hnext2; subst t'.
    exists payload. auto.
Defined.

Lemma refresh_locked_goes_through_witness :
  exists r w',
    refresh_locked (L := Reference.reference) (online late) late stocked
    = (Ok (Some r), w')
    /\ hr_date r = jan8
    /\ holidays r = [PStr (u "День России")]
    /\ fetches w' = 1.
Proof.
  destruct (refresh_locked_goes_through
              (L := Reference.reference) (online late) late stocked saved
              page jan8 jan9 [u "День России"] [])
    as (r & w' & Hrun & Hdate & Hnames & _ & Hfetch);
    try reflexivity.
  - intros e He. discriminate He.
  - exists r, w'. split; [exact Hrun|]. split; [exact Hdate|].
    split; [exact Hnames | exact Hfetch].
Defined.

Lemma get_today_holidays_fallback_witness :
  ready stocked
  /\ exists r w',
       get_today_holidays (L := Reference.reference) (offline noon)
                          (Some late_abroad) true stocked = (Ok r, w')
       /\ served (L := Reference.reference) (offline noon)
                 late true stocked r w'.
Proof.
  assert (Hready : ready stocked).
  { exists saved. split; [reflexivity | vm_compute; reflexivity]. }
  split; [exact Hready|].
  destruct (get_today_holidays_fallback (L := Reference.reference)
              (offline noon) (Some late_abroad) true stocked Hready)
    as [Hserved _].
  apply (Hserved late).
  apply (of_other_zone (L := Reference.reference) (offline noon)
                       late_abroad 1500 late eq_refl eq_refl).
Defined.

(** The last hour of the calendar in UTC: on the scheduler's clock it is
    past the calendar's end. *)
Definition last_hour : datetime :=
  mk_datetime (mk_date 9999 12 31) 23 0 0 0 (Some (OtherZone 1440)).

(** C4 as stated fails, in three ways.  (1) The cache holds a slot for
    the target date, the query does not force a refresh and the page could
    be fetched: the answer is the cached slot as it is; nothing is fetched,
    although the refresh would succeed and return other holidays, and the
    answer carries neither the stale-cache nor the fetch-failed annotation.
    (2) A [now] of another zone that the scheduler's clock cannot read (the
    last hour of the year 9999 in UTC): the conversion comes before the
    [try] and its OverflowError leaves the call.  (3) A cache file whose
    tomorrow slot has a number as its date: initialisation accepts it, and
    a query for a date that is in neither slot ends in the TypeError the
    lookup raises when it reads the number as a date. *)
Lemma get_today_holidays_serves_cache_hit_unannotated :
  (exists r w' fresh w1,
      get_today_holidays (L := Reference.reference) (online noon)
                         (Some noon) false stocked = (Ok r, w')
      /\ fetches w' = fetches stocked
      /\ refresh_holiday_cache (L := Reference.reference) (online noon)
                               (Some noon) stocked = (Ok (Some fresh), w1)
      /\ holidays r <> holidays fresh
      /\ holidays r <> []
      /\ error r = None)
  /\ (exists e w',
         get_today_holidays (L := Reference.reference) (online noon)
                            (Some last_hour) true stocked = (Raise e, w')
         /\ exc_type e = OverflowError)
  /\ (exists w e w',
         initialize_holiday_cache (L := Reference.reference) (online noon)
                                  cache_path (u "00:00") edited = (Ok tt, w)
         /\ get_today_holidays (L := Reference.reference) (online noon)
                               (Some (mk_datetime jan9 12 0 0 0 (Some Moscow)))
                               false w = (Raise e, w')
         /\ exc_type e = TypeError).
Proof.
  split; [|split].
  - do 4 eexists.
    split; [vm_compute; reflexivity|].
    split; [reflexivity|].
    split; [vm_compute; reflexivity|].
    split; [vm_compute; discriminate|].
    split; [vm_compute; discriminate | reflexivity].
  - do 2 eexists. split; [vm_compute; reflexivity | reflexivity].
  - do 3 eexists. split; [vm_compute; reflexivity|].
    split; [vm_compute; reflexivity | reflexivity].
Defined.

End RefreshProps.

(* ================================================================== *)
(** * Properties of the page parser                                    *)
(* ================================================================== *)

Module ParserProps.
Import Py Holidays.
Import TimeProps.

(** ** Pages

    A page as the parser needs it to be: sections, and around them
    anything at all.  Inside a section the [div]s are closed and a holiday
    link is closed before another link starts; what other tags do, there
    or elsewhere, is of no account. *)

(** What stands inside a holiday link: text, tags other than [div] and
    [a], and [div]s with what they hold. *)
Inductive piece :=
  | Chunk (data : str)
  | Inline (e : html_event)
  | Box (attrs : list (str * option str)) (content : list piece).

(** What stands inside a section: holiday links, [div]s with what they
    hold, and anything else that is not a [div] tag (text, other tags,
    other links). *)
Inductive item :=
  | Loose (e : html_event)
  | Block (attrs : list (str * option str)) (content : list item)
  | Link (attrs : list (str * option str)) (content : list piece).






(** ** What the specification asks for *)






(** ** Which pages these are *)

















Lemma div_is_not_a (tag : str) :
  str_eqb tag (u "div") = true -> str_eqb tag (u "a") = false.
Proof. intros H. apply str_eqb_eq in H. subst tag. reflexivity. Qed.

(** *** Inside a holiday link: text is collected *)





(** *** Inside the section, outside a link: the links are found *)






(** *** Outside the sections: nothing is found, the container opens one *)






(** *** No container at all *)


Section WithLib.
Context {L : Lib}.



End WithLib.

Import Scenario.







End ParserProps.

(* ================================================================== *)
(** * Concurrent refreshes                                             *)
(* ================================================================== *)

(** Several tasks call [refresh_holiday_cache] on one event loop.  A task
    runs until it awaits: a caller waits for [_refresh_lock]; when the lock
    is free it takes it and sends its request ([_download_html]); when the
    response arrives it runs the rest of the body in one piece and gives
    the lock back, also when the body raises. *)

Module LockProps.
Import Py Holidays.
Import StoreProps RefreshProps.

(** A call: the answers the surroundings give it, its moment (fixed
    before the lock is asked for), and where it stands. *)
Inductive caller :=
  | Waiting (E : env) (moment : datetime)
  | Fetching (E : env) (moment : datetime)
  | Finished (r : result (option HolidayResult)).

Record system := mk_system {
  store : world;
  locked : bool;
  callers : list caller
}.

(** What the event loop lets happen next: caller [i] gets the lock, or
    the response for caller [i] arrives. *)
Inductive action :=
  | Acquire (i : nat)
  | Respond (i : nat).

Fixpoint set_nth {A} (i : nat) (x : A) (l : list A) : list A :=
  match l, i with
  | [], _ => []
  | _ :: t, O => x :: t
  | h :: t, S j => h :: set_nth j x t
  end.

Definition is_waiting (c : caller) : bool :=
  match c with Waiting _ _ => true | _ => false end.
Definition is_fetching (c : caller) : bool :=
  match c with Fetching _ _ => true | _ => false end.
Definition is_finished (c : caller) : bool :=
  match c with Finished _ => true | _ => false end.
Definition has_returned (c : caller) : bool :=
  match c with Finished (Ok _) => true | _ => false end.

(** The moment of a call that is not over is one of the scheduler's
    zone: it has passed [_normalize_now]. *)
Definition in_zone (c : caller) : bool :=
  match c with
  | Waiting _ moment | Fetching _ moment =>
    match tzinfo moment with
    | Some Moscow => true
    | _ => false
    end
  | Finished _ => true
  end.

Definition count (f : caller -> bool) (l : list caller) : nat :=
  List.length (filter f l).

(** All callers have just called, nobody holds the lock. *)
Definition initial (s : system) : Prop :=
  locked s = false
  /\ forallb is_waiting (callers s) = true
  /\ forallb in_zone (callers s) = true.

(** The callers that took the lock, in the order they took it. *)
Fixpoint acquired (schedule : list action) : list nat :=
  match schedule with
  | [] => []
  | Acquire i :: rest => i :: acquired rest
  | Respond _ :: rest => acquired rest
  end.

Section WithLib.
Context {L : Lib}.

(** The body under the lock after the download. *)
Definition after_response (E : env) (moment : datetime) (w : world)
  : result (option HolidayResult) * world :=
  match response E with
  | Ok html => refresh_with E html moment w
  | Raise e => (Raise e, w)
  end.

Definition perform (a : action) (s : system) : option system :=
  match a with
  | Acquire i =>
    match nth_error (callers s) i with
    | Some (Waiting E moment) =>
      if locked s then None
      else Some (mk_system (count_fetch (store s)) true
                           (set_nth i (Fetching E moment) (callers s)))
    | _ => None
    end
  | Respond i =>
    match nth_error (callers s) i with
    | Some (Fetching E moment) =>
      Some (mk_system (snd (after_response E moment (store s))) false
                      (set_nth i (Finished
                                    (fst (after_response E moment (store s))))
                               (callers s)))
    | _ => None
    end
  end.

Fixpoint perform_all (schedule : list action) (s : system) : option system :=
  match schedule with
  | [] => Some s
  | a :: rest =>
    match perform a s with
    | Some s' => perform_all rest s'
    | None => None
    end
  end.

(** Caller [i] runs the whole body of its refresh, with nobody in
    between: it returns what that body returns. *)
Definition refresh_of (i : nat) (s : system) : option system :=
  match nth_error (callers s) i with
  | Some (Waiting E moment) =>
    if locked s then None
    else Some (mk_system (snd (refresh_locked E moment (store s))) false
                         (set_nth i (Finished
                                       (fst (refresh_locked E moment
                                                            (store s))))
                                  (callers s)))
  | _ => None
  end.

(** The callers of [order] refresh one after the other. *)
Fixpoint one_by_one (order : list nat) (s : system) : option system :=
  match order with
  | [] => Some s
  | i :: rest =>
    match refresh_of i s with
    | Some s' => one_by_one rest s'
    | None => None
    end
  end.

(** Taking the lock and getting the response, one after the other, is the
    body of [refresh_locked]. *)
Lemma acquire_then_respond (E : env) (moment : datetime) (w : world) :
  after_response E moment (count_fetch w) = refresh_locked E moment w.
Proof.
  unfold after_response, refresh_locked, bind, _download_html.
  fold (count_fetch w). destruct (response E); reflexivity.
Qed.

(** *** What one critical section does to the store *)

Lemma after_response_effects (E : env) (moment : datetime)
      (w w' : world) (r : result (option HolidayResult)) :
  tzinfo moment = Some Moscow ->
  initialised w ->
  after_response E moment w = (r, w') ->
  initialised w'
  /\ fetches w' = fetches w
  /\ _cache_file w' = _cache_file w
  /\ (writes w' = writes w
      \/ exists p d, _cache_file w = Some p /\ writes w' = (p, d) :: writes w)
  /\ (forall v p, r = Ok v -> _cache_file w = Some p ->
                  exists d, writes w' = (p, d) :: writes w).
Proof.
  intros Hz (payload & Hp). unfold after_response.
  destruct (response E) as [html|e].
  - intros H.
    destruct (refresh_with_effects E html moment w w' payload r Hz Hp H)
      as (Hdoc & Hf & Hfile & _ & Hw & Hok).
    split; [|auto].
    destruct Hdoc as [Hdoc | (t & t' & names & names' & Hdoc)];
      eexists; exact Hdoc.
  - intros H. inversion H; subst.
    split; [exists payload; exact Hp|].
    repeat split; auto; discriminate.
Qed.

(** *** Lists of callers *)

Lemma length_set_nth {A} (i : nat) (x : A) (l : list A) :
  List.length (set_nth i x l) = List.length l.
Proof.
  revert i; induction l as [|h t IH]; intros [|j]; cbn; auto.
Qed.

Lemma nth_error_set_nth_same {A} (i : nat) (x y : A) (l : list A) :
  nth_error l i = Some y -> nth_error (set_nth i x l) i = Some x.
Proof.
  revert i; induction l as [|h t IH]; intros [|j]; cbn;
    try discriminate; auto.
Qed.

Lemma nth_error_set_nth_other {A} (i j : nat) (x : A) (l : list A) :
  i <> j -> nth_error (set_nth i x l) j = nth_error l j.
Proof.
  revert i j; induction l as [|h t IH]; intros [|i] [|j] H; cbn;
    try reflexivity; try congruence.
  apply IH. congruence.
Qed.

Lemma set_nth_twice {A} (i : nat) (x y : A) (l : list A) :
  set_nth i x (set_nth i y l) = set_nth i x l.
Proof.
  revert i; induction l as [|h t IH]; intros [|j]; cbn; auto.
  now rewrite IH.
Qed.

Lemma forallb_set_nth (f : caller -> bool) (i : nat) (x : caller)
      (l : list caller) :
  forallb f l = true -> f x = true -> forallb f (set_nth i x l) = true.
Proof.
  revert i; induction l as [|h t IH]; intros [|j] Hl Hx; cbn in *; auto.
  - apply andb_true_iff in Hl. destruct Hl as [_ Ht]. now rewrite Hx.
  - apply andb_true_iff in Hl. destruct Hl as [Hh Ht].
    rewrite Hh. now apply IH.
Qed.

Lemma forallb_nth_error (f : caller -> bool) (i : nat) (c : caller)
      (l : list caller) :
  forallb f l = true -> nth_error l i = Some c -> f c = true.
Proof.
  intros Hl Hi. rewrite forallb_forall in Hl.
  apply Hl. eapply nth_error_In; eauto.
Qed.

Lemma count_set_nth (f : caller -> bool) (i : nat) (old new : caller)
      (l : list caller) :
  nth_error l i = Some old ->
  count f (set_nth i new l) + (if f old then 1 else 0)
  = count f l + (if f new then 1 else 0).
Proof.
  unfold count. revert i; induction l as [|h t IH]; intros [|j] H;
    cbn in H; try discriminate.
  - inversion H; subst h. cbn [set_nth filter].
    destruct (f old), (f new); cbn [List.length]; lia.
  - cbn [set_nth filter]. specialize (IH j H).
    destruct (f h); cbn [List.length]; lia.
Qed.

Lemma count_all (f : caller -> bool) (l : list caller) :
  forallb f l = true -> count f l = List.length l.
Proof.
  unfold count. induction l as [|h t IH]; cbn; [reflexivity|].
  intros H. apply andb_true_iff in H. destruct H as [-> Ht].
  cbn. now rewrite IH.
Qed.

Lemma count_none (f g : caller -> bool) (l : list caller) :
  (forall c, f c = true -> g c = false) ->
  forallb f l = true -> count g l = 0.
Proof.
  intros Hfg. unfold count. induction l as [|h t IH]; cbn; [reflexivity|].
  intros H. apply andb_true_iff in H. destruct H as [Hh Ht].
  rewrite (Hfg h Hh). now apply IH.
Qed.

Lemma count_le_length (f : caller -> bool) (l : list caller) :
  count f l <= List.length l.
Proof. unfold count. apply filter_length_le. Qed.

(** *** What every schedule preserves *)

Record invariant (s0 s : system) : Prop := {
  inv_length : List.length (callers s) = List.length (callers s0);
  inv_lock :
    count is_fetching (callers s) = if locked s then 1 else 0;
  inv_fetches :
    fetches (store s)
    = fetches (store s0) + count is_fetching (callers s)
      + count is_finished (callers s);
  inv_initialised : initialised (store s);
  inv_zone : forallb in_zone (callers s) = true;
  inv_file : _cache_file (store s) = _cache_file (store s0);
  inv_writes_upper :
    List.length (writes (store s))
    <= List.length (writes (store s0)) + count is_finished (callers s);
  inv_writes_lower :
    _cache_file (store s0) <> None ->
    List.length (writes (store s0)) + count has_returned (callers s)
    <= List.length (writes (store s))
}.

Lemma invariant_initial (s0 : system) :
  initial s0 -> initialised (store s0) -> invariant s0 s0.
Proof.
  intros (Hlock & Hall & Hzone) Hready.
  assert (Hf : count is_fetching (callers s0) = 0).
  { apply (count_none is_waiting); [|exact Hall]. now intros []. }
  assert (Hd : count is_finished (callers s0) = 0).
  { apply (count_none is_waiting); [|exact Hall]. now intros []. }
  assert (Hr : count has_returned (callers s0) = 0).
  { apply (count_none is_waiting); [|exact Hall]. now intros []. }
  constructor; auto; rewrite ?Hlock, ?Hf, ?Hd, ?Hr; lia.
Qed.

Lemma invariant_step (s0 s s' : system) (a : action) :
  invariant s0 s -> perform a s = Some s' -> invariant s0 s'.
Proof.
  intros [Hlen Hlock Hfetch Hready Hzone Hfile Hup Hlow].
  destruct a as [i | i]; cbn [perform].
  - destruct (nth_error (callers s) i) as [[E moment | |]|] eqn:Hi;
      try discriminate.
    destruct (locked s) eqn:Hl; [discriminate|].
    intros H. inversion H; subst s'; clear H.
    pose proof (count_set_nth is_fetching i _ (Fetching E moment) _ Hi) as Cf.
    pose proof (count_set_nth is_finished i _ (Fetching E moment) _ Hi) as Cd.
    pose proof (count_set_nth has_returned i _ (Fetching E moment) _ Hi) as Cr.
    cbn [is_fetching is_finished has_returned] in Cf, Cd, Cr.
    pose proof (forallb_nth_error in_zone i _ _ Hzone Hi) as Hz.
    constructor; cbn [store locked callers count_fetch fetches writes
                      _cache_file];
      rewrite ?length_set_nth; try lia; auto.
    all: try (intros Hsome; specialize (Hlow Hsome); lia).
    all: try (destruct Hready as (payload & Hp); exists payload; exact Hp).
    all: try (apply forallb_set_nth; [exact Hzone | exact Hz]).
  - destruct (nth_error (callers s) i) as [[| E moment |]|] eqn:Hi;
      try discriminate.
    intros H. inversion H; subst s'; clear H.
    destruct (after_response E moment (store s)) as [r w'] eqn:Hrun.
    cbn [fst snd].
    pose proof (forallb_nth_error in_zone i _ _ Hzone Hi) as Hz.
    cbn [in_zone] in Hz.
    assert (Hz' : tzinfo moment = Some Moscow).
    { destruct (tzinfo moment) as [[|z]|]; try discriminate. reflexivity. }
    destruct (after_response_effects E moment _ _ _ Hz' Hready Hrun)
      as (Hready' & Hf' & Hfile' & Hw' & Hok').
    pose proof (count_set_nth is_fetching i _ (Finished r) _ Hi) as Cf.
    pose proof (count_set_nth is_finished i _ (Finished r) _ Hi) as Cd.
    pose proof (count_set_nth has_returned i _ (Finished r) _ Hi) as Cr.
    cbn [is_fetching is_finished] in Cf, Cd.
    assert (Hone : count is_fetching (callers s) = 1).
    { destruct (locked s); lia. }
    constructor; cbn [store locked callers];
      rewrite ?length_set_nth; try lia; auto; try congruence.
    + apply forallb_set_nth; [exact Hzone | reflexivity].
    + destruct Hw' as [-> | (p & d & _ & ->)]; cbn [List.length]; lia.
    + intros Hsome. specialize (Hlow Hsome).
      destruct r as [v|e]; cbn [has_returned] in Cr.
      * destruct (_cache_file (store s)) as [p|] eqn:Hp; [|congruence].
        destruct (Hok' v p eq_refl eq_refl) as [d ->].
        cbn [List.length]. lia.
      * destruct Hw' as [-> | (p & d & _ & ->)]; cbn [List.length]; lia.
Qed.

Lemma invariant_schedule (schedule : list action) :
  forall s0 s s',
    invariant s0 s -> perform_all schedule s = Some s' -> invariant s0 s'.
Proof.
  induction schedule as [|a rest IH]; intros s0 s s' Hinv; cbn.
  - intros H. now inversion H; subst.
  - destruct (perform a s) as [s1|] eqn:Ha; [|discriminate].
    apply IH. eapply invariant_step; eauto.
Qed.

(** *** One after the other *)

(** Nobody holds the lock and no request is in flight. *)
Definition quiet (s : system) : Prop :=
  locked s = false
  /\ forallb (fun c => negb (is_fetching c)) (callers s) = true.

Lemma quiet_no_response (s : system) (i : nat) :
  quiet s -> perform (Respond i) s = None.
Proof.
  intros [_ Hnone]. cbn [perform].
  destruct (nth_error (callers s) i) as [[| E moment |]|] eqn:Hi;
    try reflexivity.
  pose proof (forallb_nth_error _ i _ _ Hnone Hi) as H. discriminate H.
Qed.

(** From a quiet state the lock goes to a waiting caller, whose response
    is the next thing to happen; together the two steps are its refresh. *)
Lemma acquire_respond (s s1 s2 : system) (i : nat) (b : action) :
  quiet s ->
  perform (Acquire i) s = Some s1 ->
  perform b s1 = Some s2 ->
  b = Respond i /\ refresh_of i s = Some s2 /\ quiet s2.
Proof.
  intros [Hlock Hnone]. cbn [perform]. unfold refresh_of.
  destruct (nth_error (callers s) i) as [[E moment | |]|] eqn:Hi;
    try discriminate.
  rewrite Hlock. intros H. inversion H; subst s1; clear H.
  destruct b as [j | j]; cbn [perform callers locked store].
  - destruct (nth_error (set_nth i (Fetching E moment) (callers s)) j)
      as [[| |]|]; discriminate.
  - destruct (Nat.eq_dec i j) as [<- | Hij].
    + rewrite (nth_error_set_nth_same i _ _ _ Hi).
      rewrite acquire_then_respond, set_nth_twice.
      intros H. inversion H; subst s2; clear H.
      split; [reflexivity|]. split; [reflexivity|].
      split; [reflexivity|]. cbn [callers].
      apply forallb_set_nth; [exact Hnone | reflexivity].
    + rewrite (nth_error_set_nth_other i j) by exact Hij.
      destruct (nth_error (callers s) j) as [[| E' moment' |]|] eqn:Hj;
        try discriminate.
      pose proof (forallb_nth_error _ j _ _ Hnone Hj) as H. discriminate H.
Qed.

(** Every schedule is the callers' refreshes one after the other, in the
    order the lock was taken, and at the end possibly a caller that has
    the lock and waits for its response. *)
Lemma schedule_one_by_one (n : nat) :
  forall (schedule : list action) (s s' : system),
    List.length schedule <= n ->
    quiet s ->
    perform_all schedule s = Some s' ->
    (locked s' = false /\ one_by_one (acquired schedule) s = Some s')
    \/ (locked s' = true
        /\ exists before i last,
             schedule = before ++ [Acquire i]
             /\ one_by_one (acquired before) s = Some last
             /\ perform (Acquire i) last = Some s').
Proof.
  induction n as [|n IH]; intros schedule s s' Hlen Hquiet Hrun.
  - destruct schedule; [|cbn in Hlen; lia].
    cbn in Hrun. inversion Hrun; subst s'. left.
    split; [apply Hquiet | reflexivity].
  - destruct schedule as [|a rest].
    { cbn in Hrun. inversion Hrun; subst s'. left.
      split; [apply Hquiet | reflexivity]. }
    cbn [perform_all] in Hrun.
    destruct (perform a s) as [s1|] eqn:Ha; [|discriminate].
    destruct a as [i | i];
      [|rewrite (quiet_no_response s i Hquiet) in Ha; discriminate].
    destruct rest as [|b rest].
    { cbn in Hrun. inversion Hrun; subst s'. right. split.
      - cbn [perform] in Ha.
        destruct (nth_error (callers s) i) as [[E moment | |]|];
          try discriminate.
        destruct (locked s); [discriminate|].
        inversion Ha; subst. reflexivity.
      - exists [], i, s. auto. }
    cbn [perform_all] in Hrun.
    destruct (perform b s1) as [s2|] eqn:Hb; [|discriminate].
    destruct (acquire_respond s s1 s2 i b Hquiet Ha Hb)
      as (-> & Hturn & Hquiet2).
    cbn [acquired one_by_one]. rewrite Hturn.
    destruct (IH rest s2 s') as [Hdone | (Hheld & before & k & last & Hsplit
                                          & Hturns & Hlast)];
      [cbn in Hlen; lia | exact Hquiet2 | exact Hrun | left; exact Hdone |].
    right. split; [exact Hheld|].
    exists (Acquire i :: Respond i :: before), k, last.
    split; [now rewrite Hsplit|].
    cbn [acquired one_by_one]. rewrite Hturn. auto.
Qed.

(** What a caller that is done has returned: the result of the body of
    its own refresh, on the store as it found it. *)
Lemma one_by_one_results (order : list nat) :
  forall (s s' : system) (i : nat) (r : result (option HolidayResult)),
    one_by_one order s = Some s' ->
    nth_error (callers s') i = Some (Finished r) ->
    nth_error (callers s) i = Some (Finished r)
    \/ exists E moment w,
         nth_error (callers s) i = Some (Waiting E moment)
         /\ r = fst (refresh_locked E moment w).
Proof.
  induction order as [|j rest IH]; intros s s' i r; cbn [one_by_one].
  - intros H. inversion H; subst. auto.
  - destruct (refresh_of j s) as [s1|] eqn:Hj; [|discriminate].
    intros Hrest Hi.
    unfold refresh_of in Hj.
    destruct (nth_error (callers s) j) as [[E moment | |]|] eqn:Hcj;
      try discriminate.
    destruct (locked s); [discriminate|].
    inversion Hj; subst s1; clear Hj.
    destruct (IH _ _ i r Hrest Hi) as [Hdone | (E' & moment' & w & Hw & Hr)];
      cbn [callers] in *.
    + destruct (Nat.eq_dec j i) as [<- | Hji].
      * rewrite (nth_error_set_nth_same j _ _ _ Hcj) in Hdone.
        inversion Hdone. right. eauto.
      * rewrite (nth_error_set_nth_other j i) in Hdone by exact Hji. auto.
    + destruct (Nat.eq_dec j i) as [<- | Hji].
      * rewrite (nth_error_set_nth_same j _ _ _ Hcj) in Hw. discriminate.
      * rewrite (nth_error_set_nth_other j i) in Hw by exact Hji.
        right. eauto.
Qed.

(** C1, as the code has it: refreshes are serialised, not shared.  On
    an initialised store, whatever the order in which the event loop serves
    the callers: at most one caller at a time holds the lock with its
    request in flight; what comes of it is what comes of the callers'
    refreshes run one after the other in the order they took the lock (and,
    if the lock is held, of its holder having sent its request); a caller
    that is done has returned the result of the body of its own refresh;
    each caller that got the lock has sent a request of its own, so that
    when all [n] callers are done, [n] requests were sent; and when all of
    them returned (and the store has its cache file), the document was
    written [n] times. *)
Theorem refresh_is_serialised_not_shared
        (s0 s : system) (schedule : list action) :
  initial s0 ->
  initialised (store s0) ->
  perform_all schedule s0 = Some s ->
  count is_fetching (callers s) <= 1
  /\ (locked s = true <-> count is_fetching (callers s) = 1)
  /\ (locked s = false -> one_by_one (acquired schedule) s0 = Some s)
  /\ (locked s = true ->
      exists before i last,
        schedule = before ++ [Acquire i]
        /\ one_by_one (acquired before) s0 = Some last
        /\ perform (Acquire i) last = Some s)
  /\ (forall i r,
        nth_error (callers s) i = Some (Finished r) ->
        exists E moment w,
          nth_error (callers s0) i = Some (Waiting E moment)
          /\ r = fst (refresh_locked E moment w))
  /\ fetches (store s)
     = fetches (store s0) + count is_fetching (callers s)
       + count is_finished (callers s)
  /\ (forallb is_finished (callers s) = true ->
      fetches (store s) = fetches (store s0) + List.length (callers s0))
  /\ (forallb has_returned (callers s) = true ->
      _cache_file (store s0) <> None ->
      List.length (writes (store s))
      = List.length (writes (store s0)) + List.length (callers s0)).
Proof.
  intros Hinit Hready Hrun.
  pose proof (invariant_schedule schedule s0 s0 s
                (invariant_initial s0 Hinit Hready) Hrun)
    as [Hlen Hlock Hfetch _ _ _ Hup Hlow].
  destruct Hinit as (Hfree & Hall & Hzone).
  assert (Hquiet : quiet s0).
  { split; [exact Hfree|].
    rewrite forallb_forall in *. intros c Hc.
    specialize (Hall c Hc). now destruct c. }
  pose proof (schedule_one_by_one (List.length schedule) schedule s0 s
                (Nat.le_refl _) Hquiet Hrun) as Hserial.
  assert (Hwaiting : forall i r,
             nth_error (callers s0) i <> Some (Finished r)).
  { intros i r Hi. pose proof (forallb_nth_error _ i _ _ Hall Hi) as H.
    discriminate H. }
  split; [destruct (locked s); lia|].
  split; [destruct (locked s); split; intros; try lia; try congruence|].
  split.
  { intros Hl. destruct Hserial as [[_ H] | [H _]]; congruence. }
  split.
  { intros Hl. destruct Hserial as [[H _] | [_ H]]; [congruence | exact H]. }
  split.
  { intros i r Hi.
    destruct Hserial as [[_ Hturns]
                        | (_ & before & k & last & _ & Hturns & Hlast)].
    - destruct (one_by_one_results _ _ _ i r Hturns Hi) as [H | H];
        [exfalso; exact (Hwaiting i r H) | exact H].
    - assert (Hi' : nth_error (callers last) i = Some (Finished r)).
      { cbn [perform] in Hlast.
        destruct (nth_error (callers last) k) as [[E moment | |]|] eqn:Hk;
          try discriminate.
        destruct (locked last); [discriminate|].
        inversion Hlast; subst s; clear Hlast. cbn [callers] in Hi.
        destruct (Nat.eq_dec k i) as [<- | Hki].
        - rewrite (nth_error_set_nth_same k _ _ _ Hk) in Hi. discriminate.
        - now rewrite (nth_error_set_nth_other k i) in Hi by exact Hki. }
      destruct (one_by_one_results _ _ _ i r Hturns Hi') as [H | H];
        [exfalso; exact (Hwaiting i r H) | exact H]. }
  split; [exact Hfetch|].
  split.
  - intros Hdone.
    rewrite Hfetch, (count_all _ _ Hdone), Hlen.
    rewrite (count_none is_finished is_fetching);
      [lia | now intros [] | exact Hdone].
  - intros Hdone Hfile. specialize (Hlow Hfile).
    rewrite (count_all _ _ Hdone), Hlen in Hlow.
    pose proof (count_le_length is_finished (callers s)) as Hle.
    rewrite Hlen in Hle. lia.
Qed.

End WithLib.

Import Scenario.

(** Caller [i] is served: it takes the lock, its response arrives. *)
Definition serve (i : nat) : list action := [Acquire i; Respond i].

(** Two tasks call at the same moment, the store is stocked and the page
    can be fetched. *)
Definition two_callers : system :=
  mk_system stocked false
            [Waiting (online noon) noon; Waiting (online noon) noon].

Lemma refresh_is_serialised_not_shared_witness :
  initial two_callers
  /\ initialised (store two_callers)
  /\ exists s,
       perform_all (L := Reference.reference)
                   (serve 1 ++ serve 0) two_callers = Some s
       /\ count is_fetching (callers s) <= 1
       /\ one_by_one (L := Reference.reference) [1; 0] two_callers = Some s
       /\ fetches (store s) = fetches (store two_callers) + 2.
Proof.
  assert (Hinit : initial two_callers) by (repeat split; reflexivity).
  assert (Hready : initialised (store two_callers)).
  { exists saved. reflexivity. }
  split; [exact Hinit|]. split; [exact Hready|].
  destruct (perform_all (L := Reference.reference) (serve 1 ++ serve 0)
                        two_callers) as [s|] eqn:Hrun;
    [|vm_compute in Hrun; discriminate].
  destruct (refresh_is_serialised_not_shared
              (L := Reference.reference) two_callers s (serve 1 ++ serve 0)
              Hinit Hready Hrun) as (Hone & _ & Hturns & _ & _ & _ & Hall & _).
  assert (Hs : locked s = false /\ forallb is_finished (callers s) = true).
  { vm_compute in Hrun. inversion Hrun; subst s. split; reflexivity. }
  exists s. split; [reflexivity|]. split; [exact Hone|].
  split; [exact (Hturns (proj1 Hs))|].
  exact (Hall (proj2 Hs)).
Defined.

(** C1 as stated fails: of two callers at the same moment the second
    waits while the request of the first is in flight (it cannot take the
    lock), and once the first is done it takes the lock and sends a request
    of its own; both return, two requests were sent and the document was
    written twice. *)
Lemma two_callers_fetch_twice :
  exists in_flight s,
    perform (L := Reference.reference) (Acquire 0) two_callers
    = Some in_flight
    /\ perform (L := Reference.reference) (Acquire 1) in_flight = None
    /\ perform_all (L := Reference.reference)
                   [Respond 0; Acquire 1; Respond 1] in_flight = Some s
    /\ forallb has_returned (callers s) = true
    /\ fetches (store s) = 2
    /\ List.length (writes (store s)) = 2.
Proof.
  do 2 eexists.
  split; [vm_compute; reflexivity|].
  split; [vm_compute; reflexivity|].
  split; [vm_compute; reflexivity|].
  split; [vm_compute; reflexivity|].
  split; vm_compute; reflexivity.
Defined.

End LockProps.
